(** * Structured procedure follower: the reasoner and its extraction routine

    A shallow embedding of [experiments/structured_procedure_follower.py]:
    the [Reasoner] class (transcript, mode flag, [add_message],
    [external_dialogue], [internal_monologue]) and
    [StructuredReasoner.extract_info], together with the parts of the Python
    runtime and of pydantic that the code calls ([str.replace],
    [string.Formatter.parse], [str.format], [dict.popitem],
    [BaseModel.model_construct]).

    Python exceptions are values of [Exn]; a method is a function of the
    world (the reasoner object and the log of requests sent to the
    completion provider) that returns its result or the exception raised,
    with the world as the call left it. *)

From Stdlib Require Import String Ascii List ZArith Lia Bool DecimalString.
Import ListNotations.
Local Open Scope list_scope.
Local Open Scope string_scope.
Set Warnings "-register-all".

(** ** Exceptions and results *)

Inductive Exn : Type :=
| AssertionError (msg : string)      (* a failed [assert] *)
| Exception (msg : string)           (* [raise Exception(msg)] *)
| KeyError (key : string)
| IndexError
| ValueError
| AttributeError
| PydanticSchemaGenerationError
| PydanticInvalidForJsonSchema
| ProviderError (e : string).        (* whatever [chatgpt.complete] raised *)

Inductive Result (A : Type) : Type :=
| Ok (a : A)
| Raise (e : Exn).
Arguments Ok {A} a.
Arguments Raise {A} e.

(** ** Python values

    The values that travel through [extract_info]: decoded JSON (without
    floating-point numbers) and pydantic model instances.  A [str] is a
    [string] whose characters stand for code points; a [dict] is an
    association list in insertion order. *)

Inductive Value : Type :=
| VNone
| VBool (b : bool)
| VInt (z : Z)
| VStr (s : string)
| VList (l : list Value)
| VDict (d : list (string * Value))
| VModel (cls : string) (attrs : list (string * Value))
         (fields_set : list string + Value).

Definition Dict := list (string * Value).

(** [d[key]], [None] standing for [KeyError]. *)
Fixpoint dict_get (d : Dict) (key : string) : option Value :=
  match d with
  | [] => None
  | (k, v) :: d' => if String.eqb k key then Some v else dict_get d' key
  end.

(** [d.popitem()]: removes and returns the pair inserted last; [None]
    stands for the [KeyError] raised on an empty dict. *)
Fixpoint popitem (d : Dict) : option (Dict * (string * Value)) :=
  match d with
  | [] => None
  | kv :: d' =>
      match popitem d' with
      | None => Some ([], kv)
      | Some (rest, last) => Some (kv :: rest, last)
      end
  end.

(** ** Strings *)

Definition dquote : string := String (ascii_of_nat 34) EmptyString.

Fixpoint join (sep : string) (l : list string) : string :=
  match l with
  | [] => ""
  | [x] => x
  | x :: l' => x ++ sep ++ join sep l'
  end.

Fixpoint has_char (c : ascii) (s : string) : bool :=
  match s with
  | EmptyString => false
  | String c' s' => Ascii.eqb c c' || has_char c s'
  end.

(** [old in s]: does [old] occur in [s] as a substring? *)
Fixpoint occurs (old s : string) : bool :=
  match s with
  | EmptyString => String.prefix old ""
  | String _ s' => String.prefix old s || occurs old s'
  end.

(** [s.replace(old, new)] for a non-empty [old]: the occurrences of [old]
    are found from left to right without overlap; [skip] counts the
    characters of the occurrence just replaced that are still to be
    dropped. *)
Fixpoint replace_from (old new : string) (skip : nat) (s : string) : string :=
  match s with
  | EmptyString => ""
  | String c s' =>
      match skip with
      | S k => replace_from old new k s'
      | O =>
          if String.prefix old s
          then new ++ replace_from old new (String.length old - 1) s'
          else String c (replace_from old new 0 s')
      end
  end.

(** With an empty [old], Python puts [new] before every character and at
    the end. *)
Fixpoint interleave (new s : string) : string :=
  match s with
  | EmptyString => new
  | String c s' => new ++ String c (interleave new s')
  end.

Definition str_replace (s old new : string) : string :=
  match old with
  | EmptyString => interleave new s
  | _ => replace_from old new 0 s
  end.

(** ** Classes

    The target types of [extract_info] are class objects: a builtin class
    ([int], [bool], [str], [range], ...), an [Enum] class, or a subclass of
    pydantic's [BaseModel] with its declared fields (name, annotation,
    default; no default means the field is required). *)

Inductive PyType : Type :=
| Builtin (name : string)
| EnumClass (name : string) (members : list string)
| ModelClass (name : string) (fields : list (string * PyType * option Value)).

(** A JSON schema, kept symbolic: the schema of a class. *)
Inductive JsonSchema : Type := SchemaOf (cls : PyType).

(** ** The runtime left open

    What the development does not fix of the Python runtime and of
    pydantic: the [repr] of a [str] (quoting and escapes), the escaping
    done by [ascii], [format] with a non-empty format specification,
    attribute or index access in a replacement field ([{a.b}], [{a[0]}]),
    and whether pydantic refuses to create a model or to give its JSON
    schema, for the field names and types on which the development does
    not settle it ([None]: it does not refuse). *)

Class Runtime : Type := {
  str_repr : string -> string;
  ascii_escape : string -> string;
  format_nonempty : Value -> string -> Result string;
  field_access : Value -> string -> Result Value;
  create_model_refuses : string -> PyType -> option Exn;
  json_schema_refuses : PyType -> option Exn
}.

Section PythonRuntime.
Context {RT : Runtime}.

Definition int_str (z : Z) : string := NilZero.string_of_int (Z.to_int z).

(** [repr(v)]; a model instance prints as [Name(field=value, ...)]. *)
Fixpoint py_repr (v : Value) : string :=
  match v with
  | VNone => "None"
  | VBool true => "True"
  | VBool false => "False"
  | VInt z => int_str z
  | VStr s => str_repr s
  | VList l => "[" ++ join ", " (map py_repr l) ++ "]"
  | VDict d =>
      "{" ++ join ", " (map (fun kv => let (k, x) := kv : string * Value in
                                       str_repr k ++ ": " ++ py_repr x) d) ++ "}"
  | VModel cls attrs _ =>
      cls ++ "(" ++ join ", " (map (fun kv => let (k, x) := kv : string * Value in
                                              k ++ "=" ++ py_repr x) attrs) ++ ")"
  end.

(** [str(v)]; a model instance prints as [field=value field=value]. *)
Definition py_str (v : Value) : string :=
  match v with
  | VStr s => s
  | VModel _ attrs _ =>
      join " " (map (fun kv => let (k, x) := kv : string * Value in
                               k ++ "=" ++ py_repr x) attrs)
  | _ => py_repr v
  end.

End PythonRuntime.

(** ** Format strings: [string.Formatter.parse] and [str.format]

    Both run the same scanner over the template.  An item is one tuple of
    [Formatter.parse]: [(literal_text, field_name, format_spec, conversion)],
    whose last three components are [None] together when the literal text
    is not followed by a replacement field. *)

Record Field : Type := {
  field_name : string;
  format_spec : string;
  conversion : option ascii
}.

Record Item : Type := {
  literal_text : string;
  field : option Field
}.

Inductive Scan : Type :=
| InLiteral (lit : string)
| AfterOpen (lit : string)                 (* a [{] was read *)
| AfterClose (lit : string)                (* a [}] was read *)
| InName (lit name : string) (bracket : bool)
| AtConversion (lit name : string)         (* a [!] was read *)
| AfterConversion (lit name : string) (conv : ascii)
| InSpec (lit name : string) (conv : option ascii) (spec : string) (depth : nat).

Definition snoc (s : string) (c : ascii) : string := s ++ String c EmptyString.

(** A conversion character NUL is no conversion. *)
Definition emit_field (lit name spec : string) (conv : option ascii)
  : Result (Scan * option Item) :=
  Ok (InLiteral "",
      Some {| literal_text := lit;
              field := Some {| field_name := name; format_spec := spec;
                               conversion :=
                                 match conv with
                                 | Some c =>
                                     if Ascii.eqb c Ascii.zero then None
                                     else Some c
                                 | None => None
                                 end |} |}).

Definition emit_literal (lit : string) : Result (Scan * option Item) :=
  Ok (InLiteral "", Some {| literal_text := lit; field := None |}).

(** One character of a field name, outside square brackets. *)
Definition name_step (lit name : string) (c : ascii) : Result (Scan * option Item) :=
  if Ascii.eqb c "{" then Raise ValueError
  else if Ascii.eqb c "[" then Ok (InName lit (snoc name c) true, None)
  else if Ascii.eqb c "}" then emit_field lit name "" None
  else if Ascii.eqb c ":" then Ok (InSpec lit name None "" 0, None)
  else if Ascii.eqb c "!" then Ok (AtConversion lit name, None)
  else Ok (InName lit (snoc name c) false, None).

Definition scan_step (st : Scan) (c : ascii) : Result (Scan * option Item) :=
  match st with
  | InLiteral lit =>
      if Ascii.eqb c "{" then Ok (AfterOpen lit, None)
      else if Ascii.eqb c "}" then Ok (AfterClose lit, None)
      else Ok (InLiteral (snoc lit c), None)
  | AfterOpen lit =>
      if Ascii.eqb c "{" then emit_literal (snoc lit c)
      else name_step lit "" c
  | AfterClose lit =>
      if Ascii.eqb c "}" then emit_literal (snoc lit c)
      else Raise ValueError
  | InName lit name true =>
      Ok (InName lit (snoc name c) (negb (Ascii.eqb c "]")), None)
  | InName lit name false => name_step lit name c
  | AtConversion lit name => Ok (AfterConversion lit name c, None)
  | AfterConversion lit name conv =>
      if Ascii.eqb c "}" then emit_field lit name "" (Some conv)
      else if Ascii.eqb c ":" then Ok (InSpec lit name (Some conv) "" 0, None)
      else Raise ValueError
  | InSpec lit name conv spec depth =>
      if Ascii.eqb c "{" then Ok (InSpec lit name conv (snoc spec c) (S depth), None)
      else if Ascii.eqb c "}" then
        match depth with
        | O => emit_field lit name spec conv
        | S d => Ok (InSpec lit name conv (snoc spec c) d, None)
        end
      else Ok (InSpec lit name conv (snoc spec c) depth, None)
  end.

(** At the end of the template only pending literal text is well formed. *)
Definition scan_end (st : Scan) : Result (option Item) :=
  match st with
  | InLiteral EmptyString => Ok None
  | InLiteral lit => Ok (Some {| literal_text := lit; field := None |})
  | _ => Raise ValueError
  end.

(** The scanner hands every item to [emit] as soon as it is complete, the
    way the iterator is consumed by [parse] and by [format]. *)
Fixpoint markup {B : Type} (emit : Item -> B -> Result B)
         (st : Scan) (acc : B) (s : string) : Result B :=
  match s with
  | EmptyString =>
      match scan_end st with
      | Raise e => Raise e
      | Ok None => Ok acc
      | Ok (Some it) => emit it acc
      end
  | String c rest =>
      match scan_step st c with
      | Raise e => Raise e
      | Ok (st', None) => markup emit st' acc rest
      | Ok (st', Some it) =>
          match emit it acc with
          | Raise e => Raise e
          | Ok acc' => markup emit st' acc' rest
          end
      end
  end.

(** [list(Formatter().parse(s))]. *)
Definition Formatter_parse (s : string) : Result (list Item) :=
  markup (fun it acc => Ok (acc ++ [it])%list) (InLiteral "") [] s.

(** The part of a field name before the first [.] or [[], and the rest. *)
Fixpoint field_name_split (s : string) : string * string :=
  match s with
  | EmptyString => ("", "")
  | String c s' =>
      if Ascii.eqb c "." || Ascii.eqb c "[" then ("", s)
      else let (first, rest) := field_name_split s' in (String c first, rest)
  end.

(** A decimal digit: among the code points a character of [string] can
    stand for, the ASCII digits. *)
Definition is_digit (c : ascii) : bool :=
  (48 <=? nat_of_ascii c)%nat && (nat_of_ascii c <=? 57)%nat.

Definition PY_SSIZE_T_MAX : Z := 2 ^ 63 - 1.

(** [get_integer]: the number a string of decimal digits denotes; [None]
    (the C function's -1) for the empty string and as soon as a character
    is not a digit; [ValueError] as soon as the digits read so far
    overflow, whatever follows them. *)
Fixpoint get_integer_from (accumulator : Z) (s : string) : Result (option Z) :=
  match s with
  | EmptyString => Ok (Some accumulator)
  | String c s' =>
      if is_digit c then
        let digitval := Z.of_nat (nat_of_ascii c - 48) in
        if ((PY_SSIZE_T_MAX - digitval) / 10 <? accumulator)%Z
        then Raise ValueError
        else get_integer_from (accumulator * 10 + digitval)%Z s'
      else Ok None
  end.

Definition get_integer (s : string) : Result (option Z) :=
  match s with
  | EmptyString => Ok None
  | _ => get_integer_from 0 s
  end.

Section Format.
Context {RT : Runtime}.

(** The object a replacement field names, for a call with keyword
    arguments only: an empty or numeric first part indexes the (empty)
    tuple of positional arguments. *)
Definition get_field_object (name : string) (kwargs : Dict) : Result Value :=
  let (first, rest) := field_name_split name in
  match get_integer first with
  | Raise e => Raise e
  | Ok (Some _) => Raise IndexError
  | Ok None =>
      match first with
      | EmptyString => Raise IndexError
      | _ =>
          match dict_get kwargs first with
          | None => Raise (KeyError first)
          | Some obj =>
              match rest with
              | EmptyString => Ok obj
              | _ => field_access obj rest
              end
          end
      end
  end.

Definition do_conversion (obj : Value) (conv : option ascii) : Result Value :=
  match conv with
  | None => Ok obj
  | Some c =>
      if Ascii.eqb c "r" then Ok (VStr (py_repr obj))
      else if Ascii.eqb c "s" then Ok (VStr (py_str obj))
      else if Ascii.eqb c "a" then Ok (VStr (ascii_escape (py_repr obj)))
      else Raise ValueError
  end.

(** [format(obj, spec)]. *)
Definition render_field (obj : Value) (spec : string) : Result string :=
  match spec with
  | EmptyString => Ok (py_str obj)
  | _ => format_nonempty obj spec
  end.

(** A format specification that contains a [{] is itself formatted first,
    one level deep. *)
Fixpoint build_string (depth : nat) (input : string) (kwargs : Dict) : Result string :=
  match depth with
  | O => Raise ValueError
  | S d =>
      markup
        (fun it out =>
           match field it with
           | None => Ok (out ++ literal_text it)
           | Some f =>
               match get_field_object (field_name f) kwargs with
               | Raise e => Raise e
               | Ok obj =>
                   match do_conversion obj (conversion f) with
                   | Raise e => Raise e
                   | Ok obj' =>
                       match (if has_char "{" (format_spec f)
                              then build_string d (format_spec f) kwargs
                              else Ok (format_spec f)) with
                       | Raise e => Raise e
                       | Ok spec =>
                           match render_field obj' spec with
                           | Raise e => Raise e
                           | Ok text => Ok (out ++ literal_text it ++ text)
                           end
                       end
                   end
               end
           end)
        (InLiteral "") "" input
  end.

(** [input.format] called with the keyword arguments [kwargs]. *)
Definition str_format (input : string) (kwargs : Dict) : Result string :=
  build_string 2 input kwargs.

End Format.

(** ** pydantic *)

(** [type(cls)]: the metaclass.  Every subclass of [BaseModel] is created
    by pydantic's [ModelMetaclass], every [Enum] class by [EnumMeta]. *)
Inductive Metaclass : Type := type_ | EnumMeta | ModelMetaclass.

Definition type_of (cls : PyType) : Metaclass :=
  match cls with
  | Builtin _ => type_
  | EnumClass _ _ => EnumMeta
  | ModelClass _ _ => ModelMetaclass
  end.

Definition is_type (m : Metaclass) : bool :=
  match m with type_ => true | _ => false end.

(** [issubclass(cls, BaseModel)]. *)
Definition issubclass_BaseModel (cls : PyType) : bool :=
  match cls with ModelClass _ _ => true | _ => false end.

(** What is settled about pydantic (version 2).  It refuses a field whose
    name is a member of its protected namespaces, and a field whose type
    has no core schema; it creates the model but has no JSON schema for a
    field of type [type].  It accepts the field names of the docstring's
    examples and of the script with types that JSON can describe.  The
    rest is left to the runtime. *)
Definition one_of (names : list string) (n : string) : bool :=
  existsb (String.eqb n) names.

Definition protected_member (field : string) : bool :=
  one_of ["model_dump"; "model_validate"] field.

Definition ordinary_field (field : string) : bool :=
  one_of ["age"; "state"; "person"; "answer"] field.

Definition no_core_schema (annotation : PyType) : bool :=
  match annotation with
  | Builtin n => one_of ["range"; "slice"] n
  | _ => false
  end.

Definition is_type_class (annotation : PyType) : bool :=
  match annotation with
  | Builtin n => String.eqb n "type"
  | _ => false
  end.

Fixpoint json_type (t : PyType) : bool :=
  match t with
  | Builtin n => one_of ["int"; "bool"; "str"] n
  | EnumClass _ members => match members with [] => false | _ :: _ => true end
  | ModelClass _ fields =>
      forallb (fun fd => let '(_, annotation, _) := fd
                                 : string * PyType * option Value in
                         json_type annotation) fields
  end.

(** The class [create_model] returns when it returns. *)
Definition single_field_model (name field : string) (annotation : PyType)
  : PyType :=
  ModelClass name [(field, annotation, None)].

Section Pydantic.
Context {RT : Runtime}.

(** [create_model(name, **{field: (annotation, ...)})]: a new model class
    with one required field, or the exception pydantic raises. *)
Definition create_model (name field : string) (annotation : PyType)
  : Result PyType :=
  if protected_member field && json_type annotation then Raise ValueError
  else if ordinary_field field && no_core_schema annotation
       then Raise PydanticSchemaGenerationError
  else if ordinary_field field && (json_type annotation || is_type_class annotation)
       then Ok (single_field_model name field annotation)
  else match create_model_refuses field annotation with
       | Some e => Raise e
       | None => Ok (single_field_model name field annotation)
       end.

(** [cls.model_json_schema()]: a method of model classes only. *)
Definition model_json_schema (cls : PyType) : Result JsonSchema :=
  match cls with
  | ModelClass _ fields =>
      if json_type cls then Ok (SchemaOf cls)
      else if match fields with
              | [(_, annotation, _)] => is_type_class annotation
              | _ => false
              end
           then Raise PydanticInvalidForJsonSchema
      else match json_schema_refuses cls with
           | Some e => Raise e
           | None => Ok (SchemaOf cls)
           end
  | _ => Raise AttributeError
  end.

End Pydantic.


(** [cls.model_construct(_fields_set=None, **values)]: an instance built
    without validation.  Each declared field takes its value from the
    keyword arguments, else its default when it has one, and is left unset
    otherwise; the set of fields recorded on the instance is [_fields_set]
    when one is given, else the names found among the keyword arguments. *)
Definition model_construct (cls : PyType) (_fields_set : option Value)
           (values : Dict) : Result Value :=
  match cls with
  | ModelClass name fields =>
      let fields_values :=
        flat_map (fun fd => let '(fname, _, default) := fd in
                            match dict_get values fname with
                            | Some v => [(fname, v)]
                            | None =>
                                match default with
                                | Some dv => [(fname, dv)]
                                | None => []
                                end
                            end) fields in
      let fields_set :=
        flat_map (fun fd => let '(fname, _, _) := fd in
                            match dict_get values fname with
                            | Some _ => [fname]
                            | None => []
                            end) fields in
      Ok (VModel name fields_values
                 (match _fields_set with
                  | None => inl fields_set
                  | Some given => inr given
                  end))
  | _ => Raise AttributeError
  end.

(** ** Messages and the completion provider

    A message is the dictionary [add_message] builds.  The module
    [chatgpt] is not part of this file: its [complete] is a parameter of
    the development.  Its answers have the shape the code relies on: a text
    when no function is offered, and, when one is, a dictionary with the
    keys [role], [content], [name] and [args].  An answer may depend on the
    requests received before, and a call may raise. *)

Record Message : Type := {
  role : string;
  content : string;
  name : option string
}.

Record FunctionSchema : Type := {
  fn_name : string;
  fn_description : string;
  fn_parameters : JsonSchema
}.

Record Request : Type := {
  req_messages : list Message;
  req_model : string;
  req_functions : option (list FunctionSchema);
  req_function_call : option string;     (* [{'name': ...}] *)
  req_use_cache : option bool
}.

Record FunctionResponse : Type := {
  r_role : string;
  r_content : Value;
  r_name : string;
  r_args : Dict
}.

Record Provider : Type := {
  complete_text : list Request -> Request -> Result string;
  complete_call : list Request -> Request -> Result FunctionResponse
}.

(** ** The reasoner *)

Record Reasoner : Type := {
  model : string;
  messages : list Message;
  _is_internal : bool
}.

(** The reasoner object and the requests sent to the provider so far. *)
Record World : Type := {
  self : Reasoner;
  sent : list Request
}.

Definition M (A : Type) : Type := World -> Result A * World.

Definition ret {A} (a : A) : M A := fun w => (Ok a, w).

Definition raise {A} (e : Exn) : M A := fun w => (Raise e, w).

Definition bind {A B} (m : M A) (k : A -> M B) : M B :=
  fun w =>
    match m w with
    | (Ok a, w') => k a w'
    | (Raise e, w') => (Raise e, w')
    end.

Definition lift {A} (r : Result A) : M A := fun w => (r, w).

Notation "x <- m ;; k" := (bind m (fun x => k))
  (at level 61, m at next level, right associativity).
Notation "m ;;; k" := (bind m (fun _ => k))
  (at level 61, right associativity).

Definition get_self : M Reasoner := fun w => (Ok (self w), w).

Definition set_is_internal (b : bool) : M unit :=
  fun w =>
    (Ok tt, {| self := {| model := model (self w);
                          messages := messages (self w);
                          _is_internal := b |};
               sent := sent w |}).

(** [Reasoner.__init__]. *)
Definition init (system_prompt : option string) (model : string) : Reasoner :=
  {| model := model;
     messages :=
       match system_prompt with
       | Some (String c p) =>
           [{| role := "system"; content := String c p; name := None |}]
       | _ => []
       end;
     _is_internal := false |}.

Definition fresh (system_prompt : option string) (model : string) : World :=
  {| self := init system_prompt model; sent := [] |}.

(** The message dictionary [add_message] builds: the [name] key is set
    only for a non-empty name. *)
Definition make_message (role message : string) (name : option string) : Message :=
  {| role := role;
     content := message;
     name := match name with
             | Some (String c n) => Some (String c n)
             | _ => None
             end |}.

Definition add_message (role message : string) (name : option string) : M unit :=
  fun w =>
    (Ok tt, {| self := {| model := model (self w);
                          messages := (messages (self w)
                                       ++ [make_message role message name])%list;
                          _is_internal := _is_internal (self w) |};
               sent := sent w |}).

Section Methods.
Context {RT : Runtime} (provider : Provider).

(** [chatgpt.complete(messages=self.messages, model=self.model, ...)]. *)
Definition send {A} (ask : list Request -> Request -> Result A)
           (functions : option (list FunctionSchema))
           (function_call : option string) (use_cache : option bool) : M A :=
  fun w =>
    let request := {| req_messages := messages (self w);
                      req_model := model (self w);
                      req_functions := functions;
                      req_function_call := function_call;
                      req_use_cache := use_cache |} in
    (ask (sent w) request,
     {| self := self w; sent := (sent w ++ [request])%list |}).

Definition TAG : string := "[Internal Monologue]: ".

Definition external_dialogue (thought : string) : M string :=
  add_message "assistant" (TAG ++ thought) None ;;;
  this <- get_self ;;
  (if _is_internal this then
     set_is_internal false ;;;
     add_message "assistant"
       (TAG ++ "I am now entering the external dialogue state. Everything I say there will be seen.")
       None ;;;
     add_message "function" "[Exited Internal Monologue]" (Some "exit_monologue")
   else ret tt) ;;;
  response <- send (complete_text provider) None None None ;;
  add_message "assistant" response None ;;;
  ret response.

Definition internal_monologue (thought : string) : M string :=
  this <- get_self ;;
  (if negb (_is_internal this) then
     set_is_internal true ;;;
     add_message "function" "[Entered Internal Monologue]" (Some "enter_monologue") ;;;
     add_message "assistant"
       (TAG ++ "I am now in the internal monologue state. I won't be able to respond here, so I'll use this space to think, reflect, and plan.")
       None
   else ret tt) ;;;
  add_message "assistant" (TAG ++ thought) None ;;;
  response <- send (complete_text provider) None None (Some true) ;;
  let response := str_replace response TAG "" in
  add_message "assistant" (TAG ++ response) None ;;;
  ret response.

(** [[x for x in formatter.parse(info_format) if x[1] is not None]]. *)
Definition named_fields (items : list Item) : list Field :=
  flat_map (fun x => match field x with Some f => [f] | None => [] end) items.

Definition use_pydantic_of (output_type : PyType) : bool :=
  is_type (type_of output_type) && issubclass_BaseModel output_type.

Definition extract_info (info_format : string) (output_type : PyType) : M Value :=
  items <- lift (Formatter_parse info_format) ;;
  let parsed := named_fields items in
  match parsed with
  | [f] =>
      let field_name := field_name f in
      let use_pydantic := use_pydantic_of output_type in
      params <- lift (if use_pydantic then model_json_schema output_type
                      else
                        match create_model "SingleFieldModel" field_name
                                           output_type with
                        | Ok SingleFieldModel =>
                            model_json_schema SingleFieldModel
                        | Raise e => Raise e
                        end) ;;
      let func_name := "remember_" ++ field_name in
      let json_schema :=
        {| fn_name := func_name;
           fn_description :=
             "This function stores a piece of information in the format: '"
               ++ info_format ++ "'.";
           fn_parameters := params |} in
      response <- send (complete_call provider) (Some [json_schema])
                       (Some func_name) (Some true) ;;
      if negb (String.eqb (r_role response) "function") then
        raise (Exception ("Expected a function call, but got: "
                            ++ py_str (r_content response)))
      else
        value <- (if use_pydantic then
                    lift (model_construct output_type
                                          (Some (VDict (r_args response))) [])
                  else
                    match dict_get (r_args response) field_name with
                    | Some v => ret v
                    | None =>
                        match popitem (r_args response) with
                        | Some (_, (_, v)) => ret v
                        | None => raise (KeyError "popitem(): dictionary is empty")
                        end
                    end) ;;
        info <- lift (str_format info_format [(field_name, value)]) ;;
        add_message "function"
          ("Stored information: " ++ dquote ++ info ++ dquote)
          (Some (r_name response)) ;;;
        ret value
  | _ => raise (AssertionError "Only one format field is allowed.")
  end.

End Methods.

(** ** Transcripts, markers and requests *)

Definition tagged (text : string) : Message :=
  {| role := "assistant"; content := TAG ++ text; name := None |}.

Definition enter_marker : Message :=
  {| role := "function"; content := "[Entered Internal Monologue]";
     name := Some "enter_monologue" |}.

Definition enter_notice : Message :=
  tagged "I am now in the internal monologue state. I won't be able to respond here, so I'll use this space to think, reflect, and plan.".

Definition exit_notice : Message :=
  tagged "I am now entering the external dialogue state. Everything I say there will be seen.".

Definition exit_marker : Message :=
  {| role := "function"; content := "[Exited Internal Monologue]";
     name := Some "exit_monologue" |}.

Definition with_messages (w : World) (msgs : list Message) (internal : bool)
           (requests : list Request) : World :=
  {| self := {| model := model (self w); messages := msgs;
                _is_internal := internal |};
     sent := requests |}.

(** The transcript [internal_monologue] has built when it calls the
    provider, and the request it sends. *)
Definition monologue_transcript (w : World) (thought : string) : list Message :=
  (messages (self w)
   ++ (if _is_internal (self w) then [] else [enter_marker; enter_notice])
   ++ [tagged thought])%list.

Definition monologue_request (w : World) (thought : string) : Request :=
  {| req_messages := monologue_transcript w thought;
     req_model := model (self w);
     req_functions := None; req_function_call := None;
     req_use_cache := Some true |}.

(** The same for [external_dialogue]. *)
Definition dialogue_transcript (w : World) (thought : string) : list Message :=
  (messages (self w)
   ++ [tagged thought]
   ++ (if _is_internal (self w) then [exit_notice; exit_marker] else []))%list.

Definition dialogue_request (w : World) (thought : string) : Request :=
  {| req_messages := dialogue_transcript w thought;
     req_model := model (self w);
     req_functions := None; req_function_call := None;
     req_use_cache := None |}.

(** The request [extract_info] sends for a template whose one field is
    called [field_name]. *)
Definition extraction_schema (info_format field_name : string)
           (output_type : PyType) : FunctionSchema :=
  {| fn_name := "remember_" ++ field_name;
     fn_description :=
       "This function stores a piece of information in the format: '"
         ++ info_format ++ "'.";
     fn_parameters :=
       SchemaOf
         (if is_type (type_of output_type) && issubclass_BaseModel output_type
          then output_type
          else single_field_model "SingleFieldModel" field_name output_type) |}.

Definition extraction_request (info_format field_name : string)
           (output_type : PyType) (w : World) : Request :=
  {| req_messages := messages (self w);
     req_model := model (self w);
     req_functions := Some [extraction_schema info_format field_name output_type];
     req_function_call := Some ("remember_" ++ field_name);
     req_use_cache := Some true |}.

(** The message that records what was remembered. *)
Definition stored (info name : string) : Message :=
  make_message "function" ("Stored information: " ++ dquote ++ info ++ dquote)
               (Some name).

(** The parameters of the function schema, as [extract_info] obtains them
    from pydantic. *)
Definition built_params {RT : Runtime} (field_name : string)
           (output_type : PyType) : Result JsonSchema :=
  if use_pydantic_of output_type then model_json_schema output_type
  else
    match create_model "SingleFieldModel" field_name output_type with
    | Ok SingleFieldModel => model_json_schema SingleFieldModel
    | Raise e => Raise e
    end.

(** The value [extract_info] decodes from the arguments of the response. *)
Definition decoded (output_type : PyType) (field_name : string) (args : Dict)
  : Result Value :=
  if use_pydantic_of output_type then
    model_construct output_type (Some (VDict args)) []
  else
    match dict_get args field_name with
    | Some v => Ok v
    | None =>
        match popitem args with
        | Some (_, (_, v)) => Ok v
        | None => Raise (KeyError "popitem(): dictionary is empty")
        end
    end.

Definition called (w : World) (request : Request) : World :=
  {| self := self w; sent := (sent w ++ [request])%list |}.

Definition recorded (w : World) (request : Request) (m : Message) : World :=
  with_messages w (messages (self w) ++ [m])%list (_is_internal (self w))
                (sent w ++ [request])%list.

(** Transition markers: is the last marker of a transcript an
    [enter_monologue] that no [exit_monologue] has followed? *)
Definition is_marker (tag : string) (m : Message) : bool :=
  String.eqb (role m) "function"
  && match name m with Some n => String.eqb n tag | None => false end.

Definition open_monologue (transcript : list Message) : bool :=
  fold_left (fun inside m =>
               if is_marker "enter_monologue" m then true
               else if is_marker "exit_monologue" m then false
               else inside)
            transcript false.

Definition count_markers (tag : string) (l : list Message) : nat :=
  length (filter (is_marker tag) l).

(** Sequences of calls; a call that raised leaves the world as it was at
    the raise, and the caller goes on. *)
Inductive Call : Type :=
| InternalMonologue (thought : string)
| ExternalDialogue (thought : string).

Definition perform (p : Provider) (c : Call) (w : World) : World :=
  match c with
  | InternalMonologue thought => snd (internal_monologue p thought w)
  | ExternalDialogue thought => snd (external_dialogue p thought w)
  end.

Definition perform_all (p : Provider) (calls : list Call) (w : World) : World :=
  fold_left (fun w c => perform p c w) calls w.

(** What one call adds to the transcript, and the mode it leaves. *)
Definition added (p : Provider) (c : Call) (w : World) : list Message :=
  match c with
  | InternalMonologue thought =>
      (if _is_internal (self w) then [] else [enter_marker; enter_notice])
      ++ [tagged thought]
      ++ match complete_text p (sent w) (monologue_request w thought) with
         | Ok text => [tagged (str_replace text TAG "")]
         | Raise _ => []
         end
  | ExternalDialogue thought =>
      [tagged thought]
      ++ (if _is_internal (self w) then [exit_notice; exit_marker] else [])
      ++ match complete_text p (sent w) (dialogue_request w thought) with
         | Ok text => [make_message "assistant" text None]
         | Raise _ => []
         end
  end%list.

(** The public operations of a reasoner. *)
Inductive Operation : Type :=
| AddMessage (role message : string) (name : option string)
| Speak (thought : string)
| Think (thought : string)
| Extract (info_format : string) (output_type : PyType).

Definition after {RT : Runtime} (p : Provider) (op : Operation) (w : World) : World :=
  match op with
  | AddMessage r m n => snd (add_message r m n w)
  | Speak thought => snd (external_dialogue p thought w)
  | Think thought => snd (internal_monologue p thought w)
  | Extract info_format output_type => snd (extract_info p info_format output_type w)
  end.

(** Modelled from the words of the specification, for comparison with the
    code: "strip any internal-monologue tag prefix from the returned
    text". *)
Fixpoint drop (n : nat) (s : string) : string :=
  match n, s with
  | S k, String _ s' => drop k s'
  | _, _ => s
  end.

Definition strip_tag_prefix (text : string) : string :=
  if String.prefix TAG text then drop (String.length TAG) text else text.

(** A runtime and providers for the examples.  The runtime is exact on
    text made of printable ASCII characters without quotes or
    backslashes, refuses format specifications and attribute access, and
    has pydantic accept what the development does not settle. *)
Definition plain_runtime : Runtime :=
  {| str_repr := fun s => "'" ++ s ++ "'";
     ascii_escape := fun s => s;
     format_nonempty := fun _ _ => Raise ValueError;
     field_access := fun _ _ => Raise AttributeError;
     create_model_refuses := fun _ _ => None;
     json_schema_refuses := fun _ => None |}.

Definition always (text : string) (response : FunctionResponse) : Provider :=
  {| complete_text := fun _ _ => Ok text;
     complete_call := fun _ _ => Ok response |}.

Definition failing (e : string) : Provider :=
  {| complete_text := fun _ _ => Raise (ProviderError e);
     complete_call := fun _ _ => Raise (ProviderError e) |}.

Definition function_call (name : string) (args : Dict) : FunctionResponse :=
  {| r_role := "function"; r_content := VNone; r_name := name; r_args := args |}.

Definition Person : PyType :=
  ModelClass "Person"
    [("name", Builtin "str", None);
     ("twitter_handle", Builtin "str", None);
     ("is_based", Builtin "bool", Some (VBool false))].

(** ** Rendering a parsed template

    [str.format] consumes the same items as [Formatter.parse]; what it
    does with one item is [render_item], and with all of them
    [fold_items]. *)

Fixpoint fold_items {B : Type} (emit : Item -> B -> Result B)
         (items : list Item) (acc : B) : Result B :=
  match items with
  | [] => Ok acc
  | it :: rest =>
      match emit it acc with
      | Raise e => Raise e
      | Ok acc' => fold_items emit rest acc'
      end
  end.

Definition render_item {RT : Runtime} (d : nat) (kwargs : Dict) (it : Item)
           (out : string) : Result string :=
  match field it with
  | None => Ok (out ++ literal_text it)
  | Some f =>
      match get_field_object (field_name f) kwargs with
      | Raise e => Raise e
      | Ok obj =>
          match do_conversion obj (conversion f) with
          | Raise e => Raise e
          | Ok obj' =>
              match (if has_char "{" (format_spec f)
                     then build_string d (format_spec f) kwargs
                     else Ok (format_spec f)) with
              | Raise e => Raise e
              | Ok spec =>
                  match render_field obj' spec with
                  | Raise e => Raise e
                  | Ok text => Ok (out ++ literal_text it ++ text)
                  end
              end
          end
      end
  end.

(** The literal texts of the items, with [text] in the place of every
    replacement field. *)
Fixpoint rendered (items : list Item) (text : string) : string :=
  match items with
  | [] => ""
  | it :: rest =>
      literal_text it
        ++ match field it with Some _ => text | None => "" end
        ++ rendered rest text
  end.

(** A field name that [format] looks up among the keyword arguments as it
    stands: not empty, with no attribute or index part, and on which
    [get_integer] meets a character that is not a digit before any
    overflow. *)
Definition is_plain (name : string) : bool :=
  let (first, rest) := field_name_split name in
  match first, rest with
  | String _ _, EmptyString =>
      match get_integer first with
      | Ok None => true
      | _ => false
      end
  | _, _ => false
  end.

(** Sequences of public operations. *)
Definition run_ops {RT : Runtime} (p : Provider) (ops : list Operation)
           (w : World) : World :=
  fold_left (fun w op => after p op w) ops w.

(** A transcript begins another one. *)
Definition begins (start transcript : list Message) : Prop :=
  exists rest : list Message, transcript = (start ++ rest)%list.

(** ** The script

    The [__main__] block: a loop over the steps of a procedure that asks,
    for each line the user types, whether the present step is completed,
    and lets the reasoner think and answer.  The console is the log of
    the calls made to [print], [printc] and [input]; the lines the user
    will type are given in advance, and [input] raises [EOFError] when
    they run out. *)

Definition nl : string := String (ascii_of_nat 10) EmptyString.

Inductive Output : Type :=
| Print (text : string)
| Printc (text : string) (color : string)
| Prompt (text : string).

Definition script_system_prompt : string :=
  "You are an expert experimental synthetic biologist who is well versed on the intricacies and reasons of various procedures. You will aide the user through a particular procedure, and you'll use your internal monologue to reason before responding to the user. You will use your monologue to think and respond to the user with precise responses with no wasted words.".

Definition script_procedure : string := "gel electrophoresis".

(** The list as Python reads it: no comma follows the eleventh string, so
    that it and ["exit"] are one string.  The three characters of the
    seventh step that are not ASCII are written as their UTF-8 bytes. *)
Definition script_steps : list string :=
  ["(1) Add 100 mL of 1XTBE buffer from the big container next to the sink and transfer it to a flask.";
   "(2) For x% gel, weigh x g of agarose and mix (e.g., 1 g agarose for 1% gel).";
   "(3) Microwave for about 2 min. The solution should be clear afterwards.";
   "(4) Set the flask and let it cool. That doesn't mean just leave it there to harden.";
   "(5) Get the gel mold and set it on the tray. Be sure to tighten the screw but not too much. Make sure the gel mold is balanced.";
   "(6) Get the 20-lane comb and set it on the end of the gel mold at the top.";
   "(7) Once the flask is cool enough to touch (make sure the solution hasnâ€™t solidified completely), put in 10 uL of ethidium bromide and swirl around until evenly distributed.";
   "(8) Pour the solution into the mold and use pipette tips to push bubbles to the side.";
   "(9) Cover with the foil and be sure to wash the flask with water.";
   "(10) After 45 mins, for sample preparation, add 6XLoading dye to the sample (Volume of the sample:Volume of the Loading dye=4:1. e.g. 5 uL loading dye for 20 uL sample solution).";
   "(11) Load the mixed sample to the lane. Each lane can hold up to 30 uL. Run at 100-130 constant voltage for 30-45 mins.exit"].

Record Script : Type := {
  reasoner : World;
  steps : list string;
  step : string;
  stdin : list string;
  stdout : list Output
}.

(** How the loop is left: its condition fails, the user types [quit], the
    [exit] step is reached, [input] finds no line, or an exception. *)
Inductive Stop : Type :=
| LoopEnded
| Quit
| Recapped
| EndOfInput
| Raised (e : Exn).

Definition greeting (procedure : string) : string :=
  "Hi! I'm trying to do the " ++ procedure ++ " procedure. I haven't started anything yet though.".

Definition recap_thought : string :=
  "I need to exit the conversation because we've finished all the steps in the procedure. I want to recap all that we've done and learned to help consolidate this information to the user. Let's just think about everything we've done and we'll worry about presenting it properly later.".

Definition guide_thought (step : string) : string :=
  "I need to guide the user to finish the step (" ++ step ++ ") to get to the next step in the procedure. I want to think about the current state they are in and understand deeply what they have done to help them understand what to do next. What has happened so far and if something has gone wrong what can we do to help them?".

Definition reply_thought : string :=
  "I'll respond to the user using the response I chose.".

(** [answer == True]: [True] itself, or the integer [1]. *)
Definition eq_True (v : Value) : bool :=
  match v with
  | VBool b => b
  | VInt z => Z.eqb z 1
  | _ => false
  end.

Definition with_console (s : Script) (w : World) (out : list Output) : Script :=
  {| reasoner := w; steps := steps s; step := step s; stdin := stdin s;
     stdout := out |}.

Section Script.
Context {RT : Runtime} (p : Provider).

(** The template of the question, built with [str.format] from a
    template of three fields; the third is filled with [{answer}]. *)
Definition question (step procedure : string) : Result string :=
  str_format
    "Has the user completed the step {step} in the procedure of {procedure}? {answer}"
    [("step", VStr step); ("procedure", VStr procedure);
     ("answer", VStr "{answer}")].

(** The end of both branches of an iteration: think, print the thought,
    answer, print the answer.  The exception, if one is raised, comes with
    the world and the console as they were left. *)
Definition think_and_speak (thought : string) (w : World) (out : list Output)
  : World * list Output * option Exn :=
  match internal_monologue p thought w with
  | (Raise e, w1) => (w1, out, Some e)
  | (Ok thought', w1) =>
      let out1 := (out ++ [Printc (nl ++ thought') "blue"])%list in
      match external_dialogue p reply_thought w1 with
      | (Raise e, w2) => (w2, out1, Some e)
      | (Ok response, w2) => (w2, (out1 ++ [Print (nl ++ response)])%list, None)
      end
  end.

(** One pass through the body of the loop: the script after it, and how
    the loop is left when this pass leaves it. *)
Definition iteration (procedure : string) (s : Script) : Script * option Stop :=
  match (if String.eqb (step s) "" then
           match steps s with
           | [] => inr (s, Raised IndexError)
           | first :: rest =>
               inl ({| reasoner := reasoner s; steps := rest; step := first;
                       stdin := stdin s; stdout := stdout s |},
                    greeting procedure)
           end
         else
           let out := (stdout s ++ [Prompt (nl ++ "User: ")])%list in
           match stdin s with
           | [] => inr (with_console s (reasoner s) out, EndOfInput)
           | line :: rest =>
               inl ({| reasoner := reasoner s; steps := steps s; step := step s;
                       stdin := rest; stdout := out |},
                    line)
           end) with
  | inr (s', why) => (s', Some why)
  | inl (s1, message) =>
      if String.eqb message "quit" then (s1, Some Quit)
      else
        let w1 := snd (add_message "user" message None (reasoner s1)) in
        match question (step s1) procedure with
        | Raise e => (with_console s1 w1 (stdout s1), Some (Raised e))
        | Ok info_format =>
            match extract_info p info_format (Builtin "bool") w1 with
            | (Raise e, w2) => (with_console s1 w2 (stdout s1), Some (Raised e))
            | (Ok answer, w2) =>
                let out2 :=
                  (stdout s1
                   ++ [Printc (nl ++ "Has the user completed the step "
                                  ++ step s1 ++ " in the procedure of "
                                  ++ procedure ++ "? " ++ py_str answer ++ nl)
                              "yellow"])%list in
                match (if eq_True answer then
                         match steps s1 with
                         | [] => None
                         | next :: rest => Some (next, rest)
                         end
                       else Some (step s1, steps s1)) with
                | None => (with_console s1 w2 out2, Some (Raised IndexError))
                | Some (step2, steps2) =>
                    let '(w3, out3, failure) :=
                      think_and_speak
                        (if String.eqb step2 "exit" then recap_thought
                         else guide_thought step2) w2 out2 in
                    ({| reasoner := w3; steps := steps2; step := step2;
                        stdin := stdin s1; stdout := out3 |},
                     match failure with
                     | Some e => Some (Raised e)
                     | None =>
                         if String.eqb step2 "exit" then Some Recapped else None
                     end)
                end
            end
        end
  end.

(** [while steps: ...], with [fuel] passes at most. *)
Fixpoint loop (procedure : string) (fuel : nat) (s : Script)
  : option (Script * Stop) :=
  match fuel with
  | O => None
  | S fuel' =>
      match steps s with
      | [] => Some (s, LoopEnded)
      | _ :: _ =>
          match iteration procedure s with
          | (s', Some why) => Some (s', why)
          | (s', None) => loop procedure fuel' s'
          end
      end
  end.

(** Every pass that goes on takes a step off the list or a line off the
    input: this many passes are enough. *)
Definition passes (s : Script) : nat := S (length (steps s) + length (stdin s)).

Definition start (system_prompt : string) (steps inputs : list string) : Script :=
  {| reasoner := fresh (Some system_prompt) "gpt-4";
     steps := steps; step := ""; stdin := inputs; stdout := [] |}.

Definition run (system_prompt procedure : string) (steps inputs : list string)
  : option (Script * Stop) :=
  loop procedure (passes (start system_prompt steps inputs))
       (start system_prompt steps inputs).

(** The script as it is written. *)
Definition main (inputs : list string) : option (Script * Stop) :=
  run script_system_prompt script_procedure script_steps inputs.

End Script.

(** The template of the question, for comparison, and its one field. *)
Definition question_text (step procedure : string) : string :=
  "Has the user completed the step " ++ step ++ " in the procedure of "
    ++ procedure ++ "? {answer}".

Definition answer_field : Field :=
  {| field_name := "answer"; format_spec := ""; conversion := None |}.

(** * Properties *)

Section Equations.
Context {RT : Runtime} (p : Provider).

Lemma internal_monologue_eq (thought : string) (w : World) :
  internal_monologue p thought w =
  let before := monologue_transcript w thought in
  let requests := (sent w ++ [monologue_request w thought])%list in
  match complete_text p (sent w) (monologue_request w thought) with
  | Ok text =>
      (Ok (str_replace text TAG ""),
       with_messages w (before ++ [tagged (str_replace text TAG "")])%list
                     true requests)
  | Raise e => (Raise e, with_messages w before true requests)
  end.
Proof.
  destruct w as [[mdl msgs internal] requests].
  unfold internal_monologue, bind, get_self, send, monologue_request,
    monologue_transcript, with_messages.
  destruct internal; cbn -[TAG str_replace];
    repeat rewrite <- app_assoc; cbn -[TAG str_replace];
    destruct (complete_text p requests _); reflexivity.
Qed.

Lemma external_dialogue_eq (thought : string) (w : World) :
  external_dialogue p thought w =
  let before := dialogue_transcript w thought in
  let requests := (sent w ++ [dialogue_request w thought])%list in
  match complete_text p (sent w) (dialogue_request w thought) with
  | Ok text =>
      (Ok text,
       with_messages w (before ++ [make_message "assistant" text None])%list
                     false requests)
  | Raise e => (Raise e, with_messages w before false requests)
  end.
Proof.
  destruct w as [[mdl msgs internal] requests].
  unfold external_dialogue, bind, get_self, send, dialogue_request,
    dialogue_transcript, with_messages.
  destruct internal; cbn -[TAG];
    repeat rewrite <- app_assoc; cbn -[TAG];
    destruct (complete_text p requests _); reflexivity.
Qed.

End Equations.

Section Extraction.
Context {RT : Runtime} (p : Provider).

Lemma model_json_schema_value (cls : PyType) (params : JsonSchema) :
  model_json_schema cls = Ok params -> params = SchemaOf cls.
Proof.
  unfold model_json_schema.
  destruct cls as [n|n members|n fields]; try discriminate.
  destruct (json_type (ModelClass n fields));
    [intros H; injection H as <-; reflexivity|].
  destruct (match fields with [(_, annotation, _)] => _ | _ => false end);
    [discriminate|].
  destruct (json_schema_refuses (ModelClass n fields)); [discriminate|].
  intros H. injection H as <-. reflexivity.
Qed.

Lemma create_model_value (name field : string) (annotation cls : PyType) :
  create_model name field annotation = Ok cls ->
  cls = single_field_model name field annotation.
Proof.
  unfold create_model.
  destruct (protected_member field && json_type annotation); [discriminate|].
  destruct (ordinary_field field && no_core_schema annotation); [discriminate|].
  destruct (ordinary_field field && (json_type annotation || is_type_class annotation));
    [intros H; injection H as <-; reflexivity|].
  destruct (create_model_refuses field annotation); [discriminate|].
  intros H. injection H as <-. reflexivity.
Qed.

(** When pydantic gives the parameters, they are the schema of the
    request. *)
Lemma built_params_value (info_format field_name : string)
      (output_type : PyType) (params : JsonSchema) :
  built_params field_name output_type = Ok params ->
  params = fn_parameters (extraction_schema info_format field_name output_type).
Proof.
  unfold built_params, extraction_schema, use_pydantic_of. cbn [fn_parameters].
  destruct (is_type (type_of output_type) && issubclass_BaseModel output_type).
  - apply model_json_schema_value.
  - destruct (create_model "SingleFieldModel" field_name output_type)
      as [cls|e] eqn:Hcls; [|discriminate].
    apply create_model_value in Hcls. subst cls.
    apply model_json_schema_value.
Qed.

Lemma extract_info_eq (info_format : string) (output_type : PyType) (w : World) :
  extract_info p info_format output_type w =
  match Formatter_parse info_format with
  | Raise e => (Raise e, w)
  | Ok items =>
      match named_fields items with
      | [f] =>
          match built_params (field_name f) output_type with
          | Raise e => (Raise e, w)
          | Ok _ =>
              let request :=
                extraction_request info_format (field_name f) output_type w in
              match complete_call p (sent w) request with
              | Raise e => (Raise e, called w request)
              | Ok response =>
                  if negb (String.eqb (r_role response) "function") then
                    (Raise (Exception ("Expected a function call, but got: "
                                         ++ py_str (r_content response))),
                     called w request)
                  else
                    match decoded output_type (field_name f)
                                  (r_args response) with
                    | Raise e => (Raise e, called w request)
                    | Ok value =>
                        match str_format info_format
                                         [(field_name f, value)] with
                        | Raise e => (Raise e, called w request)
                        | Ok info =>
                            (Ok value,
                             recorded w request
                                      (stored info (r_name response)))
                        end
                    end
              end
          end
      | _ => (Raise (AssertionError "Only one format field is allowed."), w)
      end
  end.
Proof.
  unfold extract_info, bind, lift.
  destruct (Formatter_parse info_format) as [items|e]; [|reflexivity].
  destruct (named_fields items) as [|f [|g rest]]; try reflexivity.
  fold (use_pydantic_of output_type).
  change (if use_pydantic_of output_type
          then model_json_schema output_type
          else match create_model "SingleFieldModel" (field_name f) output_type with
               | Ok SingleFieldModel => model_json_schema SingleFieldModel
               | Raise e => Raise e
               end)
    with (built_params (field_name f) output_type).
  destruct (built_params (field_name f) output_type) as [params|e] eqn:Hparams;
    [|reflexivity].
  apply (built_params_value info_format) in Hparams. subst params.
  unfold send, extraction_request, called.
  cbn -[str_format py_str String.append extraction_schema].
  destruct (complete_call p (sent w) _) as [response|e]; [|reflexivity].
  destruct (String.eqb (r_role response) "function"); [|reflexivity].
  cbn -[str_format py_str String.append extraction_schema].
  unfold decoded.
  destruct (use_pydantic_of output_type).
  - unfold lift.
    destruct (model_construct output_type _ _) as [value|e]; [|reflexivity].
    destruct (str_format info_format _) as [info|e]; reflexivity.
  - destruct (dict_get (r_args response) (field_name f)) as [v|].
    + unfold ret. destruct (str_format info_format _) as [info|e]; reflexivity.
    + destruct (popitem (r_args response)) as [[d [k v]]|]; [|reflexivity].
      unfold ret. destruct (str_format info_format _) as [info|e]; reflexivity.
Qed.

End Extraction.

(** ** Markers *)

Lemma open_monologue_app (l new : list Message) :
  open_monologue (l ++ new) =
  fold_left (fun inside m =>
               if is_marker "enter_monologue" m then true
               else if is_marker "exit_monologue" m then false
               else inside)
            new (open_monologue l).
Proof. unfold open_monologue. apply fold_left_app. Qed.

Lemma perform_messages (p : Provider) (c : Call) (w : World) :
  messages (self (perform p c w)) = (messages (self w) ++ added p c w)%list
  /\ _is_internal (self (perform p c w)) =
     match c with InternalMonologue _ => true | ExternalDialogue _ => false end.
Proof.
  destruct c as [thought|thought]; unfold perform, added.
  - rewrite internal_monologue_eq. unfold monologue_transcript.
    destruct (complete_text p (sent w) _); cbn -[TAG str_replace];
      rewrite <- ?app_assoc, ?app_nil_r; split; reflexivity.
  - rewrite external_dialogue_eq. unfold dialogue_transcript.
    destruct (complete_text p (sent w) _); cbn -[TAG];
      rewrite <- ?app_assoc, ?app_nil_r; split; reflexivity.
Qed.

Lemma added_markers (p : Provider) (c : Call) (w : World) :
  count_markers "enter_monologue" (added p c w) =
    match c with
    | InternalMonologue _ => if _is_internal (self w) then 0 else 1
    | ExternalDialogue _ => 0
    end
  /\ count_markers "exit_monologue" (added p c w) =
    match c with
    | InternalMonologue _ => 0
    | ExternalDialogue _ => if _is_internal (self w) then 1 else 0
    end.
Proof.
  destruct c as [thought|thought]; unfold added;
    destruct (_is_internal (self w));
    destruct (complete_text p (sent w) _); split; reflexivity.
Qed.

Lemma added_open (p : Provider) (c : Call) (w : World) :
  _is_internal (self w) = open_monologue (messages (self w)) ->
  open_monologue (messages (self w) ++ added p c w) =
  match c with InternalMonologue _ => true | ExternalDialogue _ => false end.
Proof.
  intros Hinv. rewrite open_monologue_app, <- Hinv.
  destruct c as [thought|thought]; unfold added;
    destruct (_is_internal (self w));
    destruct (complete_text p (sent w) _); reflexivity.
Qed.

Lemma perform_all_snoc (p : Provider) (calls : list Call) (c : Call) (w : World) :
  perform_all p (calls ++ [c]) w = perform p c (perform_all p calls w).
Proof. unfold perform_all. rewrite fold_left_app. reflexivity. Qed.

Lemma fresh_no_marker (system_prompt : option string) (mdl : string) :
  open_monologue (messages (self (fresh system_prompt mdl))) = false.
Proof. destruct system_prompt as [[|c s]|]; reflexivity. Qed.

Lemma reachable_mode (p : Provider) (system_prompt : option string)
      (mdl : string) (calls : list Call) :
  let w := perform_all p calls (fresh system_prompt mdl) in
  _is_internal (self w) = open_monologue (messages (self w)).
Proof.
  induction calls as [|c calls IH] using rev_ind; cbn zeta.
  - cbn [perform_all fold_left]. rewrite fresh_no_marker. reflexivity.
  - rewrite perform_all_snoc.
    destruct (perform_messages p c (perform_all p calls (fresh system_prompt mdl)))
      as [Hm Hi].
    rewrite Hm, Hi. symmetry. apply added_open. exact IH.
Qed.

(** C3.  After any sequence of [internal_monologue] and [external_dialogue]
    calls on a new reasoner, whatever the provider answers or raises, the
    mode flag is set exactly when the last transition marker of the
    transcript is an [enter_monologue] marker that no [exit_monologue]
    marker follows.  A further [internal_monologue] adds one
    [enter_monologue] marker when the mode was external and none when it was
    internal, and never an [exit_monologue] marker; a further
    [external_dialogue] adds one [exit_monologue] marker when the mode was
    internal and none when it was external, and never an [enter_monologue]
    marker. *)
Theorem mode_marker_invariant (p : Provider) (system_prompt : option string)
        (mdl : string) (calls : list Call) :
  let w := perform_all p calls (fresh system_prompt mdl) in
  _is_internal (self w) = open_monologue (messages (self w))
  /\ forall c : Call,
      exists new : list Message,
        messages (self (perform p c w)) = (messages (self w) ++ new)%list
        /\ count_markers "enter_monologue" new =
           match c with
           | InternalMonologue _ => if _is_internal (self w) then 0 else 1
           | ExternalDialogue _ => 0
           end
        /\ count_markers "exit_monologue" new =
           match c with
           | InternalMonologue _ => 0
           | ExternalDialogue _ => if _is_internal (self w) then 1 else 0
           end.
Proof.
  intros w. split.
  - apply reachable_mode.
  - intros c. exists (added p c w).
    destruct (perform_messages p c w) as [Hm _].
    destruct (added_markers p c w) as [He Hx].
    repeat split; assumption.
Qed.

(** ** The transcript only grows *)

(** C9.  Every public operation ([add_message], [external_dialogue],
    [internal_monologue], [extract_info]), whether it returns or raises,
    leaves a transcript of which the transcript it found is a prefix. *)
Theorem transcript_append_only {RT : Runtime} (p : Provider) (op : Operation)
        (w : World) :
  exists new : list Message,
    messages (self (after p op w)) = (messages (self w) ++ new)%list.
Proof.
  destruct op as [r m n|thought|thought|info_format output_type]; unfold after.
  - exists [make_message r m n]. reflexivity.
  - exists (added p (ExternalDialogue thought) w).
    apply (perform_messages p (ExternalDialogue thought) w).
  - exists (added p (InternalMonologue thought) w).
    apply (perform_messages p (InternalMonologue thought) w).
  - rewrite extract_info_eq.
    destruct (Formatter_parse info_format) as [items|e];
      [|exists []; symmetry; apply app_nil_r].
    destruct (named_fields items) as [|f [|g rest]];
      try (exists []; symmetry; apply app_nil_r).
    destruct (built_params (field_name f) output_type) as [params|e];
      [|exists []; symmetry; apply app_nil_r].
    cbn zeta.
    destruct (complete_call p (sent w) _) as [response|e];
      [|exists []; symmetry; apply app_nil_r].
    destruct (negb (String.eqb (r_role response) "function"));
      [exists []; symmetry; apply app_nil_r|].
    destruct (decoded output_type (field_name f) (r_args response)) as [value|e];
      [|exists []; symmetry; apply app_nil_r].
    destruct (str_format info_format _) as [info|e];
      [|exists []; symmetry; apply app_nil_r].
    exists [stored info (r_name response)]. reflexivity.
Qed.

(** ** What a failed call leaves behind *)

(** C10.  [extract_info] sends the provider the transcript as it found it,
    and when it raises, at whatever point, the reasoner is as it was before
    the call; when it returns, exactly one function-role message has been
    added.  When the provider raises in [internal_monologue] or in
    [external_dialogue], the exception reaches the caller and the
    transcript keeps the thought and the markers added before the
    request. *)
Theorem extract_info_atomic_dialogue_not {RT : Runtime} (p : Provider) (w : World) :
  (forall (info_format : string) (output_type : PyType),
      let outcome := extract_info p info_format output_type w in
      (sent (snd outcome) = sent w
       \/ exists request : Request,
           sent (snd outcome) = (sent w ++ [request])%list
           /\ req_messages request = messages (self w))
      /\ match fst outcome with
         | Raise _ => self (snd outcome) = self w
         | Ok _ =>
             exists m : Message,
               role m = "function"
               /\ messages (self (snd outcome)) = (messages (self w) ++ [m])%list
         end)
  /\ (forall (thought : string) (e : Exn),
         complete_text p (sent w) (monologue_request w thought) = Raise e ->
         fst (internal_monologue p thought w) = Raise e
         /\ messages (self (snd (internal_monologue p thought w))) =
            (messages (self w)
             ++ (if _is_internal (self w) then [] else [enter_marker; enter_notice])
             ++ [tagged thought])%list)
  /\ (forall (thought : string) (e : Exn),
         complete_text p (sent w) (dialogue_request w thought) = Raise e ->
         fst (external_dialogue p thought w) = Raise e
         /\ messages (self (snd (external_dialogue p thought w))) =
            (messages (self w)
             ++ [tagged thought]
             ++ (if _is_internal (self w) then [exit_notice; exit_marker] else []))%list).
Proof.
  split; [|split].
  - intros info_format output_type outcome. subst outcome.
    rewrite extract_info_eq.
    destruct (Formatter_parse info_format) as [items|e];
      [|split; [left|]; reflexivity].
    destruct (named_fields items) as [|f [|g rest]];
      try (split; [left|]; reflexivity).
    destruct (built_params (field_name f) output_type) as [params|e];
      [|split; [left|]; reflexivity].
    cbn zeta.
    assert (Hsent : forall r (x : Result Value) (w' : World),
               sent w' = (sent w ++ [r])%list ->
               req_messages r = messages (self w) ->
               sent (snd (x, w')) = sent w
               \/ exists request : Request,
                   sent (snd (x, w')) = (sent w ++ [request])%list
                   /\ req_messages request = messages (self w)).
    { intros r x w' H1 H2. right. exists r. split; assumption. }
    destruct (complete_call p (sent w) _) as [response|e];
      [|split; [eapply Hsent|]; reflexivity].
    destruct (negb (String.eqb (r_role response) "function"));
      [split; [eapply Hsent|]; reflexivity|].
    destruct (decoded output_type (field_name f) (r_args response)) as [value|e];
      [|split; [eapply Hsent|]; reflexivity].
    destruct (str_format info_format _) as [info|e];
      [|split; [eapply Hsent|]; reflexivity].
    split; [eapply Hsent; reflexivity|].
    exists (stored info (r_name response)). split; reflexivity.
  - intros thought e H. rewrite internal_monologue_eq, H. split; reflexivity.
  - intros thought e H. rewrite external_dialogue_eq, H. split; reflexivity.
Qed.

Lemma extract_info_atomic_dialogue_not_witness :
  let p := failing "rate limit" in
  let w := fresh (Some "You are a lab assistant.") "gpt-4" in
  complete_text p (sent w) (monologue_request w "plan") = Raise (ProviderError "rate limit")
  /\ complete_text p (sent w) (dialogue_request w "reply") = Raise (ProviderError "rate limit")
  /\ self (snd (extract_info (RT := plain_runtime) p "I am {state}" (Builtin "str") w)) = self w
  /\ messages (self (snd (internal_monologue p "plan" w))) =
     (messages (self w) ++ [enter_marker; enter_notice; tagged "plan"])%list
  /\ messages (self (snd (external_dialogue p "reply" w))) =
     (messages (self w) ++ [tagged "reply"])%list.
Proof.
  intros p w.
  pose proof (@extract_info_atomic_dialogue_not plain_runtime p w) as [Hx [Hi He]].
  split; [reflexivity|]. split; [reflexivity|]. split; [|split].
  - exact (proj2 (Hx "I am {state}" (Builtin "str"))).
  - exact (proj2 (Hi "plan" (ProviderError "rate limit") eq_refl)).
  - exact (proj2 (He "reply" (ProviderError "rate limit") eq_refl)).
Defined.

(** ** Entering the monologue *)

(** C4, as stated, fails: on a new reasoner the first message
    [internal_monologue] adds is the function-role marker, and the
    assistant's announcement comes second. *)
Lemma internal_monologue_entry_order_counterexample :
  let w := fresh None "gpt-4" in
  let w' := snd (internal_monologue (always "ok" (function_call "" [])) "plan X" w) in
  messages (self w') = [enter_marker; enter_notice; tagged "plan X"; tagged "ok"]
  /\ ~ (exists announcement marker thought response : Message,
           messages (self w') = [announcement; marker; thought; response]
           /\ role announcement = "assistant"
           /\ role marker = "function"
           /\ name marker = Some "enter_monologue").
Proof.
  cbn zeta. split; [reflexivity|].
  intros (a & m & t & r & Hmsgs & Ha & _).
  cbn in Hmsgs. injection Hmsgs as H1 _ _ _. subst a.
  cbn in Ha. discriminate Ha.
Qed.

(** C4, amended.  Called in external mode, [internal_monologue] adds, in
    this order, the function-role [enter_monologue] marker, the assistant
    message that announces the monologue, and the tagged thought: three
    messages are new in the transcript the provider receives.  The answer,
    cleaned and tagged, is the fourth; when the provider raises the three
    stay. *)
Theorem internal_monologue_from_external (p : Provider) (thought : string)
        (w : World) :
  _is_internal (self w) = false ->
  let before := (messages (self w)
                 ++ [enter_marker; enter_notice; tagged thought])%list in
  let request := {| req_messages := before;
                    req_model := model (self w);
                    req_functions := None;
                    req_function_call := None;
                    req_use_cache := Some true |} in
  let requests := (sent w ++ [request])%list in
  internal_monologue p thought w =
  match complete_text p (sent w) request with
  | Ok text =>
      (Ok (str_replace text TAG ""),
       with_messages w
         (messages (self w)
          ++ [enter_marker; enter_notice; tagged thought;
              tagged (str_replace text TAG "")])%list
         true requests)
  | Raise e => (Raise e, with_messages w before true requests)
  end.
Proof.
  intros Hmode. cbn zeta. rewrite internal_monologue_eq.
  unfold monologue_request, monologue_transcript. rewrite Hmode.
  cbn -[TAG str_replace].
  destruct (complete_text p (sent w) _) as [text|e]; [|reflexivity].
  rewrite <- app_assoc. reflexivity.
Qed.

Lemma internal_monologue_from_external_witness :
  let w := fresh None "gpt-4" in
  _is_internal (self w) = false
  /\ internal_monologue (always "ok" (function_call "" [])) "plan X" w =
     (Ok "ok",
      with_messages w
        [enter_marker; enter_notice; tagged "plan X"; tagged "ok"] true
        [{| req_messages := [enter_marker; enter_notice; tagged "plan X"];
            req_model := "gpt-4"; req_functions := None;
            req_function_call := None; req_use_cache := Some true |}]).
Proof.
  intros w. split; [reflexivity|].
  exact (internal_monologue_from_external
           (always "ok" (function_call "" [])) "plan X" w eq_refl).
Defined.

(** ** Cleaning the answer *)

Lemma replace_without_occurrence (old new s : string) :
  occurs old s = false -> replace_from old new 0 s = s.
Proof.
  induction s as [|c s IH]; [reflexivity|].
  cbn [occurs replace_from]. intros H.
  apply orb_false_iff in H as [Hp Ho].
  rewrite Hp, IH by exact Ho. reflexivity.
Qed.

Lemma replace_skip (old new a s : string) :
  replace_from old new (String.length a) (a ++ s) = replace_from old new 0 s.
Proof. induction a as [|c a IH]; [reflexivity|]. cbn. exact IH. Qed.

Lemma prefix_append (old s : string) : String.prefix old (old ++ s) = true.
Proof.
  induction old as [|c old IH]; cbn.
  - destruct s; reflexivity.
  - destruct (ascii_dec c c) as [_|Hne]; [exact IH|contradiction].
Qed.

Lemma replace_leading (c : ascii) (old new s : string) :
  replace_from (String c old) new 0 (String c old ++ s) =
  new ++ replace_from (String c old) new 0 s.
Proof.
  change (String c old ++ s) with (String c (old ++ s)).
  cbn [replace_from].
  change (String c (old ++ s)) with (String c old ++ s).
  rewrite prefix_append.
  change (String.length (String c old) - 1) with (String.length old - 0).
  rewrite Nat.sub_0_r, replace_skip. reflexivity.
Qed.

(** C6, as stated, fails: the tag is removed wherever it occurs in the
    answer, not only at its start. *)
Lemma internal_monologue_strip_counterexample :
  let text := "Plan: [Internal Monologue]: step one" in
  let outcome := internal_monologue (always text (function_call "" [])) "think"
                                    (fresh None "gpt-4") in
  fst outcome = Ok "Plan: step one"
  /\ strip_tag_prefix text = text
  /\ fst outcome <> Ok (strip_tag_prefix text).
Proof.
  cbn zeta. split; [reflexivity|]. split; [reflexivity|].
  intros H. vm_compute in H. discriminate H.
Qed.

(** C6, amended.  For every text the provider returns,
    [internal_monologue] removes every occurrence of the tag
    ["[Internal Monologue]: "] from it (found from left to right, as
    [str.replace] does), appends the cleaned text as a tagged assistant
    message and returns the cleaned text.  A text in which the tag does not
    occur is returned unchanged, and a leading tag is removed together with
    the occurrences in what follows it. *)
Theorem internal_monologue_cleans_answer (p : Provider) (thought text : string)
        (w : World) :
  complete_text p (sent w) (monologue_request w thought) = Ok text ->
  let cleaned := str_replace text TAG "" in
  internal_monologue p thought w =
    (Ok cleaned,
     with_messages w (monologue_transcript w thought ++ [tagged cleaned])%list
                   true (sent w ++ [monologue_request w thought])%list)
  /\ (occurs TAG text = false -> cleaned = text)
  /\ (forall rest : string,
         text = TAG ++ rest -> cleaned = str_replace rest TAG "").
Proof.
  intros Hreply cleaned. subst cleaned. split; [|split].
  - rewrite internal_monologue_eq, Hreply. reflexivity.
  - intros Hno. apply replace_without_occurrence. exact Hno.
  - intros rest ->. unfold str_replace, TAG.
    rewrite replace_leading. reflexivity.
Qed.

Lemma internal_monologue_cleans_answer_witness :
  let p := always "[Internal Monologue]: first, weigh the agarose"
                  (function_call "" []) in
  let w := fresh None "gpt-4" in
  complete_text p (sent w) (monologue_request w "what next?") =
    Ok "[Internal Monologue]: first, weigh the agarose"
  /\ fst (internal_monologue p "what next?" w) = Ok "first, weigh the agarose".
Proof.
  intros p w. split; [reflexivity|].
  pose proof (internal_monologue_cleans_answer p "what next?"
                "[Internal Monologue]: first, weigh the agarose" w eq_refl)
    as [H _].
  rewrite H. reflexivity.
Defined.

(** ** Extraction *)

Lemma extract_info_sends {RT : Runtime} (p : Provider) (info_format : string)
      (output_type : PyType) (w : World) (items : list Item) (f : Field)
      (params : JsonSchema) :
  Formatter_parse info_format = Ok items ->
  named_fields items = [f] ->
  built_params (field_name f) output_type = Ok params ->
  sent (snd (extract_info p info_format output_type w)) =
  (sent w ++ [extraction_request info_format (field_name f) output_type w])%list.
Proof.
  intros Hparse Hfields Hparams.
  rewrite extract_info_eq, Hparse, Hfields, Hparams. cbn zeta.
  destruct (complete_call p (sent w) _) as [response|e]; [|reflexivity].
  destruct (negb (String.eqb (r_role response) "function")); [reflexivity|].
  destruct (decoded output_type (field_name f) (r_args response)) as [value|e];
    [|reflexivity].
  destruct (str_format info_format _) as [info|e]; reflexivity.
Qed.



(** C8, as stated, fails: the field name [model_dump] is a member of
    pydantic's protected namespace, so that [create_model] raises and
    [extract_info] sends no request at all, although the template has
    exactly one placeholder. *)
Lemma extract_info_forced_call_counterexample :
  let w := fresh None "gpt-4" in
  let p := always "" (function_call "remember_model_dump"
                        [("model_dump", VInt 25)]) in
  let outcome := extract_info (RT := plain_runtime) p "Call {model_dump} now"
                              (Builtin "int") w in
  (exists items : list Item,
      Formatter_parse "Call {model_dump} now" = Ok items
      /\ length (named_fields items) = 1)
  /\ outcome = (Raise ValueError, w)
  /\ sent (snd outcome) = [].
Proof.
  cbn zeta. split; [|split].
  - eexists. split; reflexivity.
  - reflexivity.
  - reflexivity.
Qed.

(** C8, amended.  For a template with exactly one placeholder for which
    pydantic builds the schema, [extract_info] sends the provider exactly
    one request; it carries a single function schema, named [remember_]
    followed by the field name, and the directive to call the function of
    that name.  When the response's role is not ["function"],
    [extract_info] raises an [Exception] whose message ends with the
    content of the response. *)
Theorem extract_info_forced_call {RT : Runtime} (p : Provider)
        (info_format : string) (output_type : PyType) (w : World)
        (items : list Item) (f : Field) (params : JsonSchema) :
  Formatter_parse info_format = Ok items ->
  named_fields items = [f] ->
  built_params (field_name f) output_type = Ok params ->
  let func_name := "remember_" ++ field_name f in
  exists (request : Request) (schema : FunctionSchema),
    sent (snd (extract_info p info_format output_type w)) =
      (sent w ++ [request])%list
    /\ req_messages request = messages (self w)
    /\ req_functions request = Some [schema]
    /\ fn_name schema = func_name
    /\ fn_parameters schema = params
    /\ req_function_call request = Some func_name
    /\ forall response : FunctionResponse,
        complete_call p (sent w) request = Ok response ->
        r_role response <> "function" ->
        extract_info p info_format output_type w =
        (Raise (Exception ("Expected a function call, but got: "
                             ++ py_str (r_content response))),
         called w request).
Proof.
  intros Hparse Hfields Hparams func_name.
  exists (extraction_request info_format (field_name f) output_type w),
         (extraction_schema info_format (field_name f) output_type).
  split; [apply (extract_info_sends p _ _ _ items f params); assumption|].
  split; [reflexivity|]. split; [reflexivity|]. split; [reflexivity|].
  split; [symmetry; apply built_params_value; exact Hparams|].
  split; [reflexivity|].
  intros response Hreply Hrole.
  rewrite extract_info_eq, Hparse, Hfields, Hparams. cbn zeta. rewrite Hreply.
  apply String.eqb_neq in Hrole. rewrite Hrole. reflexivity.
Qed.

Lemma extract_info_forced_call_witness :
  let w := fresh None "gpt-4" in
  let p := always "" {| r_role := "assistant"; r_content := VStr "I cannot tell.";
                        r_name := ""; r_args := [] |} in
  extract_info (RT := plain_runtime) p "The user is {age} years old."
               (Builtin "int") w =
  (Raise (Exception "Expected a function call, but got: I cannot tell."),
   called w (extraction_request "The user is {age} years old." "age"
                                (Builtin "int") w)).
Proof.
  intros w p.
  destruct (@extract_info_forced_call plain_runtime p
              "The user is {age} years old." (Builtin "int") w _
              {| field_name := "age"; format_spec := ""; conversion := None |}
              _ eq_refl eq_refl eq_refl)
    as (request & schema & Hsent & _ & _ & _ & _ & _ & Hfail).
  injection Hsent as Hrequest. subst request.
  refine (Hfail _ eq_refl _). cbn. discriminate.
Defined.

(** C5, as stated, fails: the value the fallback finds must still be put
    into the template, and a template with one placeholder can refuse it.
    Here the conversion [x] is unknown to [format]: the call raises after
    the provider has answered, and nothing is returned. *)
Lemma extract_info_fallback_counterexample :
  let w := fresh None "gpt-4" in
  let p := always "" (function_call "remember_age" [("years", VInt 25)]) in
  (exists items : list Item,
      Formatter_parse "The user is {age!x} years old." = Ok items
      /\ length (named_fields items) = 1)
  /\ extract_info (RT := plain_runtime) p "The user is {age!x} years old."
                  (Builtin "int") w =
     (Raise ValueError,
      called w (extraction_request "The user is {age!x} years old." "age"
                                   (Builtin "int") w)).
Proof.
  cbn zeta. split.
  - eexists. split; reflexivity.
  - reflexivity.
Qed.

(** C5, amended.  With a target type that is not a model class, when the
    arguments of the function response hold a single pair whose key is
    not the field name, [extract_info] returns the value of that pair, for
    every template with one placeholder for which pydantic builds the
    schema and which [format] can render with the value; the rendered
    template is recorded in the transcript. *)
Theorem extract_info_fallback {RT : Runtime} (p : Provider)
        (info_format : string) (output_type : PyType) (w : World)
        (items : list Item) (f : Field) (params : JsonSchema)
        (response : FunctionResponse)
        (key : string) (v : Value) (info : string) :
  Formatter_parse info_format = Ok items ->
  named_fields items = [f] ->
  issubclass_BaseModel output_type = false ->
  built_params (field_name f) output_type = Ok params ->
  let request := extraction_request info_format (field_name f) output_type w in
  complete_call p (sent w) request = Ok response ->
  r_role response = "function" ->
  r_args response = [(key, v)] ->
  key <> field_name f ->
  str_format info_format [(field_name f, v)] = Ok info ->
  extract_info p info_format output_type w =
  (Ok v, recorded w request (stored info (r_name response))).
Proof.
  intros Hparse Hfields Hplain Hparams request Hreply Hrole Hargs Hkey Hinfo.
  rewrite extract_info_eq, Hparse, Hfields, Hparams. cbn zeta.
  fold request. rewrite Hreply, Hrole.
  change (negb (String.eqb "function" "function")) with false. cbv iota.
  unfold decoded, use_pydantic_of. rewrite Hplain, andb_false_r, Hargs.
  cbn [dict_get popitem]. apply String.eqb_neq in Hkey. rewrite Hkey.
  rewrite Hinfo. reflexivity.
Qed.

Lemma extract_info_fallback_witness :
  let w := fresh None "gpt-4" in
  let p := always "" (function_call "remember_age" [("years", VInt 25)]) in
  extract_info (RT := plain_runtime) p "The user is {age} years old."
               (Builtin "int") w =
  (Ok (VInt 25),
   recorded w (extraction_request "The user is {age} years old." "age"
                                  (Builtin "int") w)
            (stored "The user is 25 years old." "remember_age")).
Proof.
  intros w p.
  refine (@extract_info_fallback plain_runtime p "The user is {age} years old."
            (Builtin "int") w _
            {| field_name := "age"; format_spec := ""; conversion := None |}
            _
            (function_call "remember_age" [("years", VInt 25)])
            "years" (VInt 25) "The user is 25 years old."
            eq_refl eq_refl eq_refl eq_refl eq_refl eq_refl eq_refl _ eq_refl).
  cbn. discriminate.
Defined.

(** C7.  [extract_info("The user is {age} years old.", int)], when the
    provider answers with a function call of arguments [{"age": 25}],
    returns [25] and appends one function-role message whose content is
    [Stored information: "The user is 25 years old."] and whose name is the
    function name of the response. *)
Theorem extract_info_age_scenario {RT : Runtime} (p : Provider) (w : World)
        (response_content : Value) (response_name : string) :
  let request := extraction_request "The user is {age} years old." "age"
                                    (Builtin "int") w in
  complete_call p (sent w) request =
    Ok {| r_role := "function"; r_content := response_content;
          r_name := response_name; r_args := [("age", VInt 25)] |} ->
  response_name <> "" ->
  extract_info p "The user is {age} years old." (Builtin "int") w =
  (Ok (VInt 25),
   with_messages w
     (messages (self w)
      ++ [{| role := "function";
             content := "Stored information: " ++ dquote
                          ++ "The user is 25 years old." ++ dquote;
             name := Some response_name |}])%list
     (_is_internal (self w))
     (sent w ++ [request])%list).
Proof.
  intros request Hreply Hname.
  rewrite extract_info_eq.
  change (Formatter_parse "The user is {age} years old.")
    with (Ok [{| literal_text := "The user is ";
                 field := Some {| field_name := "age"; format_spec := "";
                                  conversion := None |} |};
              {| literal_text := " years old."; field := None |}]).
  cbn [named_fields flat_map field app field_name].
  change (built_params "age" (Builtin "int"))
    with (Ok (SchemaOf (single_field_model "SingleFieldModel" "age"
                                           (Builtin "int")))).
  cbn zeta. fold request. rewrite Hreply.
  cbn [r_role r_args r_name String.eqb Ascii.eqb Bool.eqb negb decoded
       use_pydantic_of type_of is_type issubclass_BaseModel andb dict_get].
  change (str_format "The user is {age} years old." [("age", VInt 25)])
    with (Ok "The user is 25 years old.").
  unfold recorded, stored, make_message.
  destruct response_name as [|c n]; [contradiction|reflexivity].
Qed.

Lemma extract_info_age_scenario_witness :
  let w := snd (add_message "user"
                  "My name's Bill, I'm a 25 y.o. male from New York." None
                  (fresh None "gpt-4")) in
  let p := always "" (function_call "remember_age" [("age", VInt 25)]) in
  fst (extract_info (RT := plain_runtime) p "The user is {age} years old."
                    (Builtin "int") w) = Ok (VInt 25)
  /\ map content
         (messages (self (snd (extract_info (RT := plain_runtime) p
                                 "The user is {age} years old."
                                 (Builtin "int") w)))) =
     ["My name's Bill, I'm a 25 y.o. male from New York.";
      "Stored information: " ++ dquote ++ "The user is 25 years old." ++ dquote].
Proof.
  intros w p.
  assert (Hname : "remember_age" <> "") by discriminate.
  rewrite (@extract_info_age_scenario plain_runtime p w VNone "remember_age"
             eq_refl Hname).
  split; reflexivity.
Defined.

(** ** Model classes *)

(** The test that selects the model branch of [extract_info] never
    succeeds: the metaclass of a model class is not [type]. *)
Lemma use_pydantic_of_false (output_type : PyType) :
  use_pydantic_of output_type = false.
Proof. destruct output_type; reflexivity. Qed.

(** [model_construct] called with the mapping as its positional argument
    takes it for the set of fields: no field receives a value from it. *)
Lemma model_construct_positional (cls : string)
      (fields : list (string * PyType * option Value)) (args : Dict) :
  model_construct (ModelClass cls fields) (Some (VDict args)) [] =
  Ok (VModel cls
        (flat_map (fun fd => let '(fname, _, default) := fd in
                             match default with
                             | Some dv => [(fname, dv)]
                             | None => []
                             end) fields)
        (inr (VDict args))).
Proof. reflexivity. Qed.

(** C1, at the example of the docstring.  With the model class [Person]
    as target and a response whose arguments are exactly the fields of
    [Person], [extract_info] does not return an instance of [Person]: it
    looks for the key [person], finds none and returns the value of the
    argument that comes last. *)
Theorem extract_info_model_class_returns_last_argument {RT : Runtime}
        (p : Provider) (w : World) (response_name : string) :
  let args := [("name", VStr "Ivan Yevenko");
               ("twitter_handle", VStr "@ivan_yevenko");
               ("is_based", VBool true)] in
  let request := extraction_request "Added {person} to the database." "person"
                                    Person w in
  complete_call p (sent w) request = Ok (function_call response_name args) ->
  extract_info p "Added {person} to the database." Person w =
  (Ok (VBool true),
   recorded w request (stored "Added True to the database." response_name)).
Proof.
  intros args request Hreply.
  rewrite extract_info_eq.
  change (Formatter_parse "Added {person} to the database.")
    with (Ok [{| literal_text := "Added ";
                 field := Some {| field_name := "person"; format_spec := "";
                                  conversion := None |} |};
              {| literal_text := " to the database."; field := None |}]).
  cbn [named_fields flat_map field app field_name].
  change (built_params "person" Person)
    with (Ok (SchemaOf (single_field_model "SingleFieldModel" "person" Person))).
  cbn zeta. fold request. rewrite Hreply. reflexivity.
Qed.

Lemma extract_info_model_class_returns_last_argument_witness :
  let w := fresh None "gpt-4" in
  let p := always "" (function_call "remember_person"
                        [("name", VStr "Ivan Yevenko");
                         ("twitter_handle", VStr "@ivan_yevenko");
                         ("is_based", VBool true)]) in
  fst (extract_info (RT := plain_runtime) p "Added {person} to the database."
                    Person w) = Ok (VBool true).
Proof.
  intros w p.
  rewrite (@extract_info_model_class_returns_last_argument plain_runtime p w
             "remember_person" eq_refl).
  reflexivity.
Defined.

(** * Further properties *)

(** ** Strings *)

Lemma append_assoc3 (a b c : string) : (a ++ b) ++ c = a ++ b ++ c.
Proof. induction a as [|x a IH]; cbn; [reflexivity|]. rewrite IH. reflexivity. Qed.

Lemma append_empty_r (a : string) : a ++ "" = a.
Proof. induction a as [|x a IH]; cbn; [reflexivity|]. rewrite IH. reflexivity. Qed.


Lemma field_name_split_append (s : string) :
  s = fst (field_name_split s) ++ snd (field_name_split s).
Proof.
  induction s as [|c s IH]; [reflexivity|]. cbn [field_name_split].
  destruct (Ascii.eqb c "." || Ascii.eqb c "["); [reflexivity|].
  destruct (field_name_split s) as [first rest]. cbn in *. rewrite <- IH.
  reflexivity.
Qed.

(** ** [format] follows [parse] *)

Lemma markup_fold_items (s : string) :
  forall (st : Scan) (pre all : list Item),
    markup (fun it acc => Ok (acc ++ [it])%list) st pre s = Ok all ->
    exists items : list Item,
      all = (pre ++ items)%list
      /\ forall (B : Type) (emit : Item -> B -> Result B) (acc : B),
          markup emit st acc s = fold_items emit items acc.
Proof.
  induction s as [|c s IH]; intros st pre all H; cbn [markup] in *.
  - destruct (scan_end st) as [[it|]|e]; try discriminate H.
    + injection H as <-. exists [it]. split; [reflexivity|].
      intros B emit acc. cbn. destruct (emit it acc); reflexivity.
    + injection H as <-. exists []. split; [symmetry; apply app_nil_r|].
      reflexivity.
  - destruct (scan_step st c) as [[st' [it|]]|e]; try discriminate H.
    + destruct (IH st' (pre ++ [it])%list all H) as (items & Hall & Hfold).
      exists (it :: items). split.
      * rewrite Hall, <- app_assoc. reflexivity.
      * intros B emit acc. cbn [fold_items].
        destruct (emit it acc) as [acc'|e]; [apply Hfold|reflexivity].
    + destruct (IH st' pre all H) as (items & Hall & Hfold).
      exists items. split; [exact Hall|]. intros B emit acc. apply Hfold.
Qed.

Lemma build_string_parsed {RT : Runtime} (d : nat) (input : string)
      (kwargs : Dict) (items : list Item) :
  Formatter_parse input = Ok items ->
  build_string (S d) input kwargs = fold_items (render_item d kwargs) items "".
Proof.
  intros Hparse.
  destruct (markup_fold_items input (InLiteral "") [] items Hparse)
    as (items' & Hall & Hfold).
  cbn in Hall. subst items'.
  cbn [build_string]. rewrite Hfold. reflexivity.
Qed.

Lemma named_fields_in (items : list Item) (it : Item) (g : Field) :
  In it items -> field it = Some g -> In g (named_fields items).
Proof.
  intros Hin Hfield. unfold named_fields. apply in_flat_map.
  exists it. split; [exact Hin|]. rewrite Hfield. left. reflexivity.
Qed.

Lemma get_field_object_plain {RT : Runtime} (name : string) (v : Value) :
  is_plain name = true -> get_field_object name [(name, v)] = Ok v.
Proof.
  unfold is_plain, get_field_object. intros H.
  pose proof (field_name_split_append name) as Hsplit.
  destruct (field_name_split name) as [first rest]. cbn [fst snd] in Hsplit.
  destruct first as [|c first]; [discriminate H|].
  destruct rest as [|c' rest]; [|discriminate H].
  rewrite append_empty_r in Hsplit. subst name.
  destruct (get_integer (String c first)) as [[index|]|e]; try discriminate H.
  cbn [dict_get]. rewrite String.eqb_refl. reflexivity.
Qed.


Lemma fold_items_plain {RT : Runtime} (d : nat) (f : Field) (v : Value)
      (items : list Item) :
  is_plain (field_name f) = true ->
  conversion f = None ->
  format_spec f = "" ->
  (forall it g, In it items -> field it = Some g -> g = f) ->
  forall out : string,
    fold_items (render_item d [(field_name f, v)]) items out =
    Ok (out ++ rendered items (py_str v)).
Proof.
  intros Hplain Hconv Hspec.
  induction items as [|it items IH]; intros Hall out.
  - cbn. rewrite append_empty_r. reflexivity.
  - cbn [fold_items rendered]. unfold render_item at 1.
    destruct (field it) as [g|] eqn:Hfield.
    + rewrite (Hall it g (or_introl eq_refl) Hfield).
      rewrite (get_field_object_plain _ v Hplain), Hconv, Hspec.
      cbn [do_conversion has_char render_field].
      rewrite IH by (intros it' g' Hin; apply Hall; right; exact Hin).
      rewrite !append_assoc3. reflexivity.
    + rewrite IH by (intros it' g' Hin; apply Hall; right; exact Hin).
      rewrite !append_assoc3. reflexivity.
Qed.


Lemma named_fields_single (items : list Item) (f : Field) :
  named_fields items = [f] ->
  (exists it, In it items /\ field it = Some f)
  /\ (forall it g, In it items -> field it = Some g -> g = f).
Proof.
  intros H. split.
  - assert (Hin : In f (named_fields items)) by (rewrite H; left; reflexivity).
    unfold named_fields in Hin. apply in_flat_map in Hin as (it & Hin & Hf).
    exists it. split; [exact Hin|].
    destruct (field it) as [g|]; [|destruct Hf].
    destruct Hf as [->|[]]. reflexivity.
  - intros it g Hin Hfield.
    pose proof (named_fields_in items it g Hin Hfield) as Hg.
    rewrite H in Hg. destruct Hg as [->|[]]. reflexivity.
Qed.

Lemma popitem_last (d : Dict) (kv : string * Value) :
  d <> [] -> exists rest, popitem d = Some (rest, last d kv).
Proof.
  induction d as [|x d IH]; intros Hne; [contradiction|].
  cbn [popitem]. destruct d as [|y d].
  - exists []. reflexivity.
  - destruct IH as [rest Hrest]; [discriminate|].
    rewrite Hrest. exists (x :: rest). reflexivity.
Qed.

(** ** When [extract_info] returns *)

Lemma extract_info_plain_eq {RT : Runtime} (p : Provider)
        (info_format : string) (output_type : PyType) (w : World)
        (items : list Item) (f : Field) (params : JsonSchema)
        (response : FunctionResponse) :
  Formatter_parse info_format = Ok items ->
  named_fields items = [f] ->
  is_plain (field_name f) = true ->
  conversion f = None ->
  format_spec f = "" ->
  built_params (field_name f) output_type = Ok params ->
  let request := extraction_request info_format (field_name f) output_type w in
  complete_call p (sent w) request = Ok response ->
  r_role response = "function" ->
  r_args response <> [] ->
  let value := match dict_get (r_args response) (field_name f) with
               | Some v => v
               | None => snd (last (r_args response) ("", VNone))
               end in
  extract_info p info_format output_type w =
  (Ok value,
   recorded w request
            (stored (rendered items (py_str value)) (r_name response))).
Proof.
  intros Hparse Hfields Hplain Hconv Hspec Hparams request Hreply Hrole Hargs
         value.
  assert (Hdecoded : decoded output_type (field_name f) (r_args response)
                     = Ok value).
  { unfold decoded. rewrite use_pydantic_of_false. subst value.
    destruct (dict_get (r_args response) (field_name f)); [reflexivity|].
    destruct (popitem_last (r_args response) ("", VNone) Hargs) as [rest ->].
    destruct (last (r_args response) ("", VNone)). reflexivity. }
  rewrite extract_info_eq, Hparse, Hfields, Hparams. cbn zeta.
  fold request. rewrite Hreply, Hrole.
  change (negb (String.eqb "function" "function")) with false. cbv iota.
  rewrite Hdecoded. unfold str_format.
  rewrite (build_string_parsed _ _ _ items Hparse).
  rewrite (fold_items_plain 1 f value items Hplain Hconv Hspec
             (proj2 (named_fields_single items f Hfields))).
  reflexivity.
Qed.





(** When pydantic builds the schema and the provider answers with a
    function call without arguments, the call cannot be decoded:
    [extract_info] raises the [KeyError] of [popitem] on an empty
    dictionary and records nothing. *)
Theorem extract_info_no_arguments {RT : Runtime} (p : Provider)
        (info_format : string) (output_type : PyType) (w : World)
        (items : list Item) (f : Field) (params : JsonSchema)
        (response : FunctionResponse) :
  Formatter_parse info_format = Ok items ->
  named_fields items = [f] ->
  built_params (field_name f) output_type = Ok params ->
  let request := extraction_request info_format (field_name f) output_type w in
  complete_call p (sent w) request = Ok response ->
  r_role response = "function" ->
  r_args response = [] ->
  extract_info p info_format output_type w =
  (Raise (KeyError "popitem(): dictionary is empty"), called w request).
Proof.
  intros Hparse Hfields Hparams request Hreply Hrole Hargs.
  rewrite extract_info_eq, Hparse, Hfields, Hparams. cbn zeta.
  fold request. rewrite Hreply, Hrole.
  change (negb (String.eqb "function" "function")) with false. cbv iota.
  unfold decoded. rewrite use_pydantic_of_false, Hargs. reflexivity.
Qed.

Lemma extract_info_no_arguments_witness :
  let w := fresh None "gpt-4" in
  let p := always "" (function_call "remember_age" []) in
  extract_info (RT := plain_runtime) p "The user is {age} years old."
               (Builtin "int") w =
  (Raise (KeyError "popitem(): dictionary is empty"),
   called w (extraction_request "The user is {age} years old." "age"
                                (Builtin "int") w)).
Proof.
  intros w p.
  exact (@extract_info_no_arguments plain_runtime p
           "The user is {age} years old." (Builtin "int") w _
           {| field_name := "age"; format_spec := ""; conversion := None |}
           _ (function_call "remember_age" [])
           eq_refl eq_refl eq_refl eq_refl eq_refl eq_refl).
Defined.

(** ** What the operations keep *)

Lemma begins_refl (l : list Message) : begins l l.
Proof. exists []. symmetry. apply app_nil_r. Qed.

Lemma begins_app (a b c : list Message) : begins a b -> begins a (b ++ c).
Proof. intros [rest ->]. exists (rest ++ c)%list. symmetry. apply app_assoc. Qed.

(** What one operation does to the transcript and to the log of requests. *)
Lemma after_growth {RT : Runtime} (p : Provider) (op : Operation) (w : World) :
  exists (new : list Message) (requests : list Request),
    messages (self (after p op w)) = (messages (self w) ++ new)%list
    /\ sent (after p op w) = (sent w ++ requests)%list
    /\ length requests <= 1
    /\ Forall (fun r => begins (req_messages r) (messages (self (after p op w)))
                        /\ req_model r = model (self w)) requests.
Proof.
  destruct op as [r m n|thought|thought|info_format output_type]; unfold after.
  - exists [make_message r m n], []. cbn.
    rewrite app_nil_r. repeat split; auto.
  - rewrite external_dialogue_eq.
    destruct (complete_text p (sent w) _) as [text|e]; cbn -[TAG].
    + exists ([tagged thought]
              ++ (if _is_internal (self w) then [exit_notice; exit_marker] else [])
              ++ [make_message "assistant" text None])%list,
             [dialogue_request w thought].
      unfold dialogue_transcript. rewrite <- !app_assoc.
      repeat split; auto. constructor; [|constructor]. split; [|reflexivity].
      cbn -[TAG]. unfold dialogue_transcript.
      exists [make_message "assistant" text None].
      rewrite <- !app_assoc. reflexivity.
    + exists ([tagged thought]
              ++ (if _is_internal (self w) then [exit_notice; exit_marker] else []))%list,
             [dialogue_request w thought].
      unfold dialogue_transcript.
      repeat split; auto. constructor; [|constructor]. split; [|reflexivity].
      apply begins_refl.
  - rewrite internal_monologue_eq.
    destruct (complete_text p (sent w) _) as [text|e]; cbn -[TAG str_replace].
    + exists ((if _is_internal (self w) then [] else [enter_marker; enter_notice])
              ++ [tagged thought]
              ++ [tagged (str_replace text TAG "")])%list,
             [monologue_request w thought].
      unfold monologue_transcript. rewrite <- !app_assoc.
      repeat split; auto. constructor; [|constructor]. split; [|reflexivity].
      cbn -[TAG str_replace]. unfold monologue_transcript.
      exists [tagged (str_replace text TAG "")].
      rewrite <- !app_assoc. reflexivity.
    + exists ((if _is_internal (self w) then [] else [enter_marker; enter_notice])
              ++ [tagged thought])%list,
             [monologue_request w thought].
      unfold monologue_transcript.
      repeat split; auto. constructor; [|constructor]. split; [|reflexivity].
      apply begins_refl.
  - rewrite extract_info_eq.
    assert (Hnone : exists (new : list Message) (requests : list Request),
               messages (self w) = (messages (self w) ++ new)%list
               /\ sent w = (sent w ++ requests)%list
               /\ length requests <= 1
               /\ Forall (fun r => begins (req_messages r) (messages (self w))
                                   /\ req_model r = model (self w)) requests).
    { exists [], []. rewrite !app_nil_r. repeat split; auto. }
    destruct (Formatter_parse info_format) as [items|e]; [|exact Hnone].
    destruct (named_fields items) as [|f [|g rest]]; try exact Hnone.
    destruct (built_params (field_name f) output_type) as [params|e];
      [|exact Hnone].
    cbn zeta.
    assert (Hcalled : forall x : Result Value,
               exists (new : list Message) (requests : list Request),
                 messages (self (snd (x, called w (extraction_request info_format (field_name f) output_type w))))
                 = (messages (self w) ++ new)%list
                 /\ sent (snd (x, called w (extraction_request info_format (field_name f) output_type w)))
                    = (sent w ++ requests)%list
                 /\ length requests <= 1
                 /\ Forall (fun r => begins (req_messages r)
                                       (messages (self (snd (x, called w (extraction_request info_format (field_name f) output_type w)))))
                                     /\ req_model r = model (self w)) requests).
    { intros x.
      exists [], [extraction_request info_format (field_name f) output_type w].
      cbn. rewrite app_nil_r. repeat split; auto.
      constructor; [|constructor]. split; [apply begins_refl|reflexivity]. }
    destruct (complete_call p (sent w) _) as [response|e]; [|apply Hcalled].
    destruct (negb (String.eqb (r_role response) "function")); [apply Hcalled|].
    destruct (decoded output_type (field_name f) (r_args response)) as [value|e];
      [|apply Hcalled].
    destruct (str_format info_format _) as [info|e]; [|apply Hcalled].
    exists [stored info (r_name response)],
           [extraction_request info_format (field_name f) output_type w].
    cbn. repeat split; auto.
    constructor; [|constructor]. split; [|reflexivity].
    exists [stored info (r_name response)]. reflexivity.
Qed.

Lemma after_frame {RT : Runtime} (p : Provider) (op : Operation) (w : World) :
  model (self (after p op w)) = model (self w)
  /\ _is_internal (self (after p op w)) =
     match op with
     | Speak _ => false
     | Think _ => true
     | AddMessage _ _ _ | Extract _ _ => _is_internal (self w)
     end.
Proof.
  destruct op as [r m n|thought|thought|info_format output_type]; unfold after.
  - split; reflexivity.
  - rewrite external_dialogue_eq.
    destruct (complete_text p (sent w) _); split; reflexivity.
  - rewrite internal_monologue_eq.
    destruct (complete_text p (sent w) _); split; reflexivity.
  - rewrite extract_info_eq.
    destruct (Formatter_parse info_format) as [items|e]; [|split; reflexivity].
    destruct (named_fields items) as [|f [|g rest]]; try (split; reflexivity).
    destruct (built_params (field_name f) output_type) as [params|e];
      [|split; reflexivity].
    cbn zeta.
    destruct (complete_call p (sent w) _) as [response|e]; [|split; reflexivity].
    destruct (negb (String.eqb (r_role response) "function"));
      [split; reflexivity|].
    destruct (decoded output_type (field_name f) (r_args response)) as [value|e];
      [|split; reflexivity].
    destruct (str_format info_format _) as [info|e]; split; reflexivity.
Qed.

(** The model identifier never changes, and the mode flag is changed by
    the two dialogue methods only: [external_dialogue] leaves it unset and
    [internal_monologue] set, also when the provider raises, while
    [add_message] and [extract_info] leave it as they found it. *)
Theorem operations_mode_and_model {RT : Runtime} (p : Provider)
        (op : Operation) (w : World) :
  model (self (after p op w)) = model (self w)
  /\ _is_internal (self (after p op w)) =
     match op with
     | Speak _ => false
     | Think _ => true
     | AddMessage _ _ _ | Extract _ _ => _is_internal (self w)
     end.
Proof. apply after_frame. Qed.

(** Each operation sends the provider at most one request ([add_message]
    none), and after any sequence of operations on a new reasoner every
    request ever sent carried the reasoner's model identifier and a
    transcript that the present transcript still begins with. *)
Theorem requests_carry_transcript_prefix {RT : Runtime} (p : Provider)
        (system_prompt : option string) (mdl : string) (ops : list Operation) :
  let w := run_ops p ops (fresh system_prompt mdl) in
  Forall (fun r => begins (req_messages r) (messages (self w))
                   /\ req_model r = mdl) (sent w)
  /\ length (sent w) <= length ops
  /\ model (self w) = mdl
  /\ forall op : Operation,
      length (sent (after p op w)) <= S (length (sent w)).
Proof.
  cbn zeta. rewrite <- !and_assoc. split.
  2:{ intros op.
      destruct (after_growth p op (run_ops p ops (fresh system_prompt mdl)))
        as (new & requests & _ & Hs & Hone & _).
      rewrite Hs, length_app. lia. }
  rewrite and_assoc.
  induction ops as [|op ops IH] using rev_ind; cbn zeta.
  - cbn. destruct system_prompt as [[|c s]|]; repeat split; auto.
  - unfold run_ops in *. rewrite fold_left_app. cbn [fold_left].
    set (w := fold_left (fun w op => after p op w) ops (fresh system_prompt mdl)) in *.
    cbn zeta in IH. destruct IH as (Hsent & Hlen & Hmodel).
    destruct (after_growth p op w) as (new & requests & Hm & Hs & Hone & Hnew).
    destruct (after_frame p op w) as [Hmdl _].
    split; [|split].
    + rewrite Hs. apply Forall_app. split.
      * eapply Forall_impl; [|exact Hsent].
        intros r [Hb Hr]. split; [|exact Hr].
        rewrite Hm. apply begins_app. exact Hb.
      * eapply Forall_impl; [|exact Hnew].
        intros r [Hb Hr]. split; [exact Hb|]. rewrite Hr. exact Hmodel.
    + rewrite Hs, !length_app. cbn. lia.
    + rewrite Hmdl. exact Hmodel.
Qed.

(** ** Markers are balanced *)

Lemma count_markers_append (tag : string) (l new : list Message) :
  count_markers tag (l ++ new) = count_markers tag l + count_markers tag new.
Proof. unfold count_markers. rewrite filter_app, length_app. reflexivity. Qed.

(** After any sequence of [internal_monologue] and [external_dialogue]
    calls on a new reasoner the transcript holds as many [enter_monologue]
    markers as [exit_monologue] markers in external mode, and one more in
    internal mode. *)
Theorem markers_balanced (p : Provider) (system_prompt : option string)
        (mdl : string) (calls : list Call) :
  let w := perform_all p calls (fresh system_prompt mdl) in
  count_markers "enter_monologue" (messages (self w)) =
  count_markers "exit_monologue" (messages (self w))
  + (if _is_internal (self w) then 1 else 0).
Proof.
  induction calls as [|c calls IH] using rev_ind; cbn zeta.
  - destruct system_prompt as [[|ch s]|]; reflexivity.
  - rewrite perform_all_snoc.
    set (w := perform_all p calls (fresh system_prompt mdl)) in *.
    cbn zeta in IH.
    destruct (perform_messages p c w) as [Hm Hi].
    destruct (added_markers p c w) as [He Hx].
    rewrite Hm, Hi, !count_markers_append, He, Hx, IH.
    destruct c; destruct (_is_internal (self w)); lia.
Qed.

(** ** Thinking, then speaking *)

(** From external mode, an [internal_monologue] followed by an
    [external_dialogue], both answered, add eight messages in this order:
    the entry marker, the entry announcement, the first thought, the
    cleaned first answer, the second thought, the exit announcement, the
    exit marker and the second answer.  Two requests are sent, and the
    reasoner is back in external mode. *)
Theorem think_then_speak (p : Provider) (thought1 thought2 answer1 answer2 : string)
        (w : World) :
  _is_internal (self w) = false ->
  complete_text p (sent w) (monologue_request w thought1) = Ok answer1 ->
  let w1 := snd (internal_monologue p thought1 w) in
  complete_text p (sent w1) (dialogue_request w1 thought2) = Ok answer2 ->
  let w2 := snd (external_dialogue p thought2 w1) in
  messages (self w2) =
    (messages (self w)
     ++ [enter_marker; enter_notice; tagged thought1;
         tagged (str_replace answer1 TAG "");
         tagged thought2; exit_notice; exit_marker;
         make_message "assistant" answer2 None])%list
  /\ sent w2 = (sent w ++ [monologue_request w thought1;
                           dialogue_request w1 thought2])%list
  /\ _is_internal (self w2) = false.
Proof.
  intros Hmode H1 w1 H2 w2. subst w2.
  rewrite external_dialogue_eq, H2.
  assert (Hw1 : w1 = with_messages w
                  (monologue_transcript w thought1
                   ++ [tagged (str_replace answer1 TAG "")])%list
                  true (sent w ++ [monologue_request w thought1])%list).
  { subst w1. rewrite internal_monologue_eq, H1. reflexivity. }
  cbn -[TAG str_replace]. unfold dialogue_transcript.
  rewrite Hw1. unfold monologue_transcript. rewrite Hmode.
  cbn -[TAG str_replace]. rewrite <- !app_assoc.
  repeat split; reflexivity.
Qed.

Lemma think_then_speak_witness :
  let p := always "Weigh 1 g of agarose." (function_call "" []) in
  let w := fresh None "gpt-4" in
  map role (messages (self (snd (external_dialogue p "reply"
                                   (snd (internal_monologue p "plan" w)))))) =
  ["function"; "assistant"; "assistant"; "assistant";
   "assistant"; "assistant"; "function"; "assistant"].
Proof.
  intros p w.
  destruct (think_then_speak p "plan" "reply" "Weigh 1 g of agarose."
              "Weigh 1 g of agarose." w eq_refl eq_refl eq_refl) as [H _].
  rewrite H. reflexivity.
Defined.

(** ** The recorded name is not checked *)



(** ** Cleaning the answer, continued *)

Lemma replace_from_length (old : string) (s : string) :
  forall skip : nat,
    String.length (replace_from old "" skip s) <= String.length s.
Proof.
  induction s as [|c s IH]; intros skip; cbn [replace_from]; [cbn; lia|].
  destruct skip as [|k].
  - destruct (String.prefix old (String c s)).
    + cbn [append String.length]. specialize (IH (String.length old - 1)). lia.
    + cbn [String.length]. specialize (IH 0). lia.
  - cbn [String.length]. specialize (IH k). lia.
Qed.

(** Cleaning only deletes: the text [internal_monologue] returns is
    never longer than the answer of the provider, and the message it
    records is the tag followed by the returned text. *)
Theorem internal_monologue_answer_not_longer (p : Provider)
        (thought text : string) (w : World) :
  complete_text p (sent w) (monologue_request w thought) = Ok text ->
  exists cleaned : string,
    fst (internal_monologue p thought w) = Ok cleaned
    /\ String.length cleaned <= String.length text
    /\ last (messages (self (snd (internal_monologue p thought w))))
            enter_marker
       = {| role := "assistant"; content := TAG ++ cleaned; name := None |}.
Proof.
  intros Hreply. exists (str_replace text TAG "").
  rewrite internal_monologue_eq, Hreply.
  cbn -[TAG str_replace String.length]. split; [reflexivity|]. split.
  - apply replace_from_length.
  - rewrite last_last. reflexivity.
Qed.

Lemma internal_monologue_answer_not_longer_witness :
  let p := always "[Internal Monologue]: pour the gel" (function_call "" []) in
  let w := fresh None "gpt-4" in
  exists cleaned : string,
    fst (internal_monologue p "next" w) = Ok cleaned
    /\ String.length cleaned <= 34.
Proof.
  intros p w.
  destruct (internal_monologue_answer_not_longer p "next"
              "[Internal Monologue]: pour the gel" w eq_refl)
    as (cleaned & Hret & Hlen & _).
  exists cleaned. split; [exact Hret|exact Hlen].
Defined.

(** Cleaning is done once: removing the occurrences of the tag can bring
    a new one together.  An answer in which a full tag stands inside a
    tag, after its first word, comes back beginning with the tag. *)
Theorem internal_monologue_tag_can_survive (p : Provider)
        (thought rest : string) (w : World) :
  complete_text p (sent w) (monologue_request w thought)
  = Ok ("[Internal " ++ TAG ++ "Monologue]: " ++ rest) ->
  fst (internal_monologue p thought w) = Ok (TAG ++ str_replace rest TAG "").
Proof.
  intros Hreply. rewrite internal_monologue_eq, Hreply. reflexivity.
Qed.

Lemma internal_monologue_tag_can_survive_witness :
  let p := always "[Internal [Internal Monologue]: Monologue]: hidden"
                  (function_call "" []) in
  fst (internal_monologue p "next" (fresh None "gpt-4"))
  = Ok "[Internal Monologue]: hidden".
Proof.
  intros p.
  exact (internal_monologue_tag_can_survive p "next" "hidden"
           (fresh None "gpt-4") eq_refl).
Defined.

(** ** The script *)

Lemma markup_literal {B : Type} (emit : Item -> B -> Result B) (s : string) :
  has_char "{" s = false ->
  has_char "}" s = false ->
  forall (lit : string) (acc : B) (rest : string),
    markup emit (InLiteral lit) acc (s ++ rest) =
    markup emit (InLiteral (lit ++ s)) acc rest.
Proof.
  induction s as [|c s IH]; intros Hopen Hclose lit acc rest.
  - rewrite append_empty_r. reflexivity.
  - cbn [has_char] in Hopen, Hclose.
    apply orb_false_iff in Hopen as [Ho Hopen].
    apply orb_false_iff in Hclose as [Hc Hclose].
    rewrite Ascii.eqb_sym in Ho. rewrite Ascii.eqb_sym in Hc.
    cbn [append markup scan_step]. rewrite Ho, Hc.
    rewrite (IH Hopen Hclose). unfold snoc.
    rewrite append_assoc3. reflexivity.
Qed.

Lemma get_field_object_lookup {RT : Runtime} (name : string) (kwargs : Dict)
      (v : Value) :
  is_plain name = true ->
  dict_get kwargs name = Some v ->
  get_field_object name kwargs = Ok v.
Proof.
  unfold is_plain, get_field_object. intros H Hget.
  pose proof (field_name_split_append name) as Hsplit.
  destruct (field_name_split name) as [first rest]. cbn [fst snd] in Hsplit.
  destruct first as [|c first]; [discriminate H|].
  destruct rest as [|c' rest]; [|discriminate H].
  rewrite append_empty_r in Hsplit. subst name.
  destruct (get_integer (String c first)) as [[index|]|e]; try discriminate H.
  rewrite Hget. reflexivity.
Qed.

Lemma question_eq {RT : Runtime} (step procedure : string) :
  question step procedure = Ok (question_text step procedure).
Proof.
  unfold question, str_format.
  rewrite (build_string_parsed 1
             "Has the user completed the step {step} in the procedure of {procedure}? {answer}"
             _
             [{| literal_text := "Has the user completed the step ";
                 field := Some {| field_name := "step"; format_spec := "";
                                  conversion := None |} |};
              {| literal_text := " in the procedure of ";
                 field := Some {| field_name := "procedure"; format_spec := "";
                                  conversion := None |} |};
              {| literal_text := "? ";
                 field := Some {| field_name := "answer"; format_spec := "";
                                  conversion := None |} |}] eq_refl).
  cbn [fold_items]. unfold render_item.
  cbn [field field_name conversion format_spec literal_text].
  set (kwargs := [("step", VStr step); ("procedure", VStr procedure);
                  ("answer", VStr "{answer}")]).
  rewrite (get_field_object_lookup "step" kwargs (VStr step) eq_refl eq_refl).
  rewrite (get_field_object_lookup "procedure" kwargs (VStr procedure)
             eq_refl eq_refl).
  rewrite (get_field_object_lookup "answer" kwargs (VStr "{answer}")
             eq_refl eq_refl).
  cbn [do_conversion has_char render_field py_str].
  unfold question_text. rewrite !append_assoc3. reflexivity.
Qed.

Lemma question_parse (step procedure : string) :
  has_char "{" step = false -> has_char "}" step = false ->
  has_char "{" procedure = false -> has_char "}" procedure = false ->
  Formatter_parse (question_text step procedure) =
  Ok [{| literal_text := "Has the user completed the step " ++ step
                           ++ " in the procedure of " ++ procedure ++ "? ";
         field := Some answer_field |}].
Proof.
  intros Hso Hsc Hpo Hpc. unfold Formatter_parse, question_text.
  rewrite (markup_literal _ "Has the user completed the step " eq_refl eq_refl).
  rewrite (markup_literal _ step Hso Hsc).
  rewrite (markup_literal _ " in the procedure of " eq_refl eq_refl).
  rewrite (markup_literal _ procedure Hpo Hpc).
  cbn. unfold snoc. rewrite !append_assoc3. reflexivity.
Qed.

Lemma extract_info_ok {RT : Runtime} (p : Provider) (info_format : string)
      (output_type : PyType) (w w' : World) (v : Value) :
  extract_info p info_format output_type w = (Ok v, w') ->
  exists (request : Request) (m : Message),
    role m = "function" /\ w' = recorded w request m.
Proof.
  rewrite extract_info_eq.
  destruct (Formatter_parse info_format) as [items|e]; [|discriminate].
  destruct (named_fields items) as [|f [|g rest]]; try discriminate.
  destruct (built_params (field_name f) output_type) as [params|e];
    [|discriminate].
  cbn zeta.
  destruct (complete_call p (sent w) _) as [response|e]; [|discriminate].
  destruct (negb (String.eqb (r_role response) "function")); [discriminate|].
  destruct (decoded output_type (field_name f) (r_args response)) as [value|e];
    [|discriminate].
  destruct (str_format info_format _) as [info|e]; [|discriminate].
  intros H. injection H as _ <-.
  eexists _, (stored info (r_name response)). split; reflexivity.
Qed.

Lemma internal_monologue_ok (p : Provider) (thought : string) (w w' : World)
      (r : string) :
  internal_monologue p thought w = (Ok r, w') ->
  w' = with_messages w (monologue_transcript w thought ++ [tagged r])%list true
                     (sent w ++ [monologue_request w thought])%list.
Proof.
  rewrite internal_monologue_eq.
  destruct (complete_text p (sent w) _) as [text|e]; [|discriminate].
  intros H. injection H as <- <-. reflexivity.
Qed.

Lemma external_dialogue_ok (p : Provider) (thought : string) (w w' : World)
      (r : string) :
  external_dialogue p thought w = (Ok r, w') ->
  w' = with_messages w
         (dialogue_transcript w thought ++ [make_message "assistant" r None])%list
         false (sent w ++ [dialogue_request w thought])%list.
Proof.
  rewrite external_dialogue_eq.
  destruct (complete_text p (sent w) _) as [text|e]; [|discriminate].
  intros H. injection H as <- <-. reflexivity.
Qed.

Ltac iteration_cases H :=
  unfold iteration in H;
  repeat match type of H with
         | context [match ?x with _ => _ end] => destruct x eqn:?
         end.

Section ScriptFacts.
Context {RT : Runtime} (p : Provider).

Lemma think_and_speak_done (thought : string) (w w' : World)
      (out out' : list Output) :
  think_and_speak p thought w out = (w', out', None) ->
  exists (r1 r2 : string) (w1 : World),
    internal_monologue p thought w = (Ok r1, w1)
    /\ external_dialogue p reply_thought w1 = (Ok r2, w').
Proof.
  unfold think_and_speak.
  destruct (internal_monologue p thought w) as [[r1|e] w1] eqn:H1; [|discriminate].
  destruct (external_dialogue p reply_thought w1) as [[r2|e] w2] eqn:H2;
    [|discriminate].
  intros H. injection H as <- _. exists r1, r2, w1. split; [reflexivity|exact H2].
Qed.

(** What a pass that goes on has done. *)
Lemma iteration_goes_on (procedure : string) (s s' : Script) :
  iteration p procedure s = (s', None) ->
  exists (s1 : Script) (message template : string) (answer : Value)
         (w2 w3 : World) (r1 r2 : string),
    ((step s = "" /\ steps s = step s1 :: steps s1 /\ stdin s1 = stdin s
      /\ message = greeting procedure)
     \/ (step s <> "" /\ stdin s = message :: stdin s1 /\ steps s1 = steps s
         /\ step s1 = step s))
    /\ reasoner s1 = reasoner s
    /\ message <> "quit"
    /\ question (step s1) procedure = Ok template
    /\ extract_info p template (Builtin "bool")
         (snd (add_message "user" message None (reasoner s))) = (Ok answer, w2)
    /\ ((eq_True answer = true /\ steps s1 = step s' :: steps s')
        \/ (eq_True answer = false /\ step s' = step s1 /\ steps s' = steps s1))
    /\ step s' <> "exit"
    /\ stdin s' = stdin s1
    /\ internal_monologue p (guide_thought (step s')) w2 = (Ok r1, w3)
    /\ external_dialogue p reply_thought w3 = (Ok r2, reasoner s').
Proof.
  intros H. iteration_cases H; try discriminate H. injection H as <-.
  match goal with
  | Hts : think_and_speak _ _ _ _ = _ |- _ =>
      destruct (think_and_speak_done _ _ _ _ _ Hts) as (r1 & r2 & w3 & H1 & H2)
  end.
  match goal with
  | Hq : String.eqb _ "quit" = false |- _ => apply String.eqb_neq in Hq
  end.
  match goal with
  | Hx : String.eqb _ "exit" = false |- _ => apply String.eqb_neq in Hx
  end.
  match goal with
  | Hs1 : _ = inl (?s1, ?message),
    Hadv : _ = Some (?step2, ?steps2),
    Hex : extract_info p ?template _ _ = (Ok ?answer, ?w2) |- _ =>
      exists s1, message, template, answer, w2, w3, r1, r2;
      assert (Hentry :
          ((step s = "" /\ steps s = step s1 :: steps s1 /\ stdin s1 = stdin s
            /\ message = greeting procedure)
           \/ (step s <> "" /\ stdin s = message :: stdin s1
               /\ steps s1 = steps s /\ step s1 = step s))
          /\ reasoner s1 = reasoner s);
      [ destruct (String.eqb (step s) "") eqn:Hstep in Hs1;
        [ apply String.eqb_eq in Hstep;
          destruct (steps s) eqn:Hsteps; [discriminate Hs1|];
          injection Hs1 as <- <-; split; [left|]; repeat split; assumption
        | apply String.eqb_neq in Hstep;
          destruct (stdin s) eqn:Hin; [discriminate Hs1|];
          injection Hs1 as <- <-; split; [right|]; repeat split; assumption ]
      | destruct Hentry as [Hentry Hr]; rewrite <- Hr;
        cbn [reasoner step steps stdin];
        repeat split; try assumption;
        destruct (eq_True answer);
          [ destruct (steps s1) eqn:Hs; [discriminate Hadv|];
            injection Hadv as <- <-; left; split; reflexivity
          | injection Hadv as <- <-; right; repeat split; reflexivity ] ]
  end.
Qed.

Lemma iteration_decreases (procedure : string) (s s' : Script) :
  iteration p procedure s = (s', None) ->
  length (steps s') + length (stdin s') < length (steps s) + length (stdin s).
Proof.
  intros H.
  destruct (iteration_goes_on procedure s s' H)
    as (s1 & message & template & answer & w2 & w3 & r1 & r2
        & Hentry & _ & _ & _ & _ & Hadv & _ & Hin & _).
  rewrite Hin.
  destruct Hentry as [(_ & Hs & Hi & _)|(_ & Hi & Hs & _)];
    destruct Hadv as [(_ & Ha)|(_ & _ & Ha)];
    apply (f_equal (@length string)) in Hs, Hi, Ha;
    cbn [length] in Hs, Hi, Ha; lia.
Qed.
End ScriptFacts.

Section ScriptRuns.
Context {RT : Runtime} (p : Provider).

Lemma loop_stops (procedure : string) (fuel : nat) :
  forall s : Script,
    length (steps s) + length (stdin s) < fuel ->
    exists result : Script * Stop, loop p procedure fuel s = Some result.
Proof.
  induction fuel as [|fuel IH]; intros s Hfuel; [lia|].
  cbn [loop]. destruct (steps s) as [|first rest] eqn:Hsteps.
  - eexists. reflexivity.
  - destruct (iteration p procedure s) as [s' [why|]] eqn:Hpass.
    + eexists. reflexivity.
    + apply IH. pose proof (iteration_decreases p procedure s s' Hpass) as Hlt.
      rewrite Hsteps in Hlt. cbn [length] in *. lia.
Qed.

(** Where the present step of a pass comes from, and when the recap is
    reached. *)
Lemma iteration_steps (procedure : string) (s s' : Script) (why : option Stop) :
  iteration p procedure s = (s', why) ->
  (step s' = step s \/ In (step s') (steps s))
  /\ (forall x, In x (steps s') -> In x (steps s))
  /\ (why = Some Recapped -> step s' = "exit").
Proof.
  intros H. iteration_cases H; injection H as <- <-;
    repeat match goal with
           | Hs : (if ?b then _ else _) = _ |- _ => destruct b eqn:?
           | Hs : match ?x with _ => _ end = _ |- _ => destruct x eqn:?
           | Hs : inl _ = inl _ |- _ => injection Hs as <- <-
           | Hs : inr _ = inr _ |- _ => injection Hs as <- <-
           | Hs : Some _ = Some _ |- _ => injection Hs as <- <-
           | Hs : inl _ = inr _ |- _ => discriminate Hs
           | Hs : inr _ = inl _ |- _ => discriminate Hs
           | Hs : None = Some _ |- _ => discriminate Hs
           | Hs : Some _ = None |- _ => discriminate Hs
           end;
    cbn [step steps with_console] in *; subst;
    repeat match goal with
           | Hs : steps _ = _ |- _ => rewrite Hs in *; clear Hs
           end;
    (split; [|split]);
    try (intros Hw; discriminate Hw);
    try (intros _; apply String.eqb_eq; assumption);
    try (intros x Hx); cbn [In]; tauto.
Qed.

Lemma loop_never_recaps (procedure : string) (fuel : nat) :
  forall (s s' : Script) (why : Stop),
    step s <> "exit" ->
    ~ In "exit" (steps s) ->
    loop p procedure fuel s = Some (s', why) ->
    why <> Recapped.
Proof.
  induction fuel as [|fuel IH]; intros s s' why Hstep Hsteps Hloop;
    [discriminate Hloop|].
  cbn [loop] in Hloop. destruct (steps s) as [|first rest] eqn:Hs.
  - injection Hloop as _ <-. discriminate.
  - destruct (iteration p procedure s) as [s1 [stop|]] eqn:Hpass.
    + injection Hloop as _ <-.
      destruct (iteration_steps procedure s s1 _ Hpass) as (Hfrom & _ & Hrecap).
      intros ->. specialize (Hrecap eq_refl).
      rewrite Hs in Hfrom. destruct Hfrom as [Hfrom|Hfrom]; congruence.
    + destruct (iteration_steps procedure s s1 _ Hpass) as (Hfrom & Hincl & _).
      rewrite Hs in Hfrom, Hincl.
      apply (IH s1 s' why); [| |exact Hloop].
      * destruct Hfrom as [Hfrom|Hfrom]; congruence.
      * intros Hin. apply Hsteps. apply Hincl. exact Hin.
Qed.

End ScriptRuns.

(** For every provider and every finite list of lines typed by the user,
    whatever the steps and the procedure, the loop of the script is left
    after at most one pass per step and per line: the script stops. *)
Theorem script_stops {RT : Runtime} (p : Provider)
        (system_prompt procedure : string) (steps inputs : list string) :
  exists (final : Script) (why : Stop),
    run p system_prompt procedure steps inputs = Some (final, why).
Proof.
  unfold run.
  destruct (loop_stops p procedure (passes (start system_prompt steps inputs))
                       (start system_prompt steps inputs))
    as [[final why] Hloop].
  - unfold passes. lia.
  - exists final, why. exact Hloop.
Qed.

Lemma script_steps_no_exit : ~ In "exit" script_steps.
Proof.
  unfold script_steps. cbn [In].
  intros H.
  repeat match type of H with
         | _ \/ _ => destruct H as [H|H]; [discriminate H|]
         end.
  exact H.
Qed.

(** The script as written never reaches its recap: the string ["exit"]
    is not an element of the list of steps (it is the end of the last
    one), so that for every provider and every input the script stops
    without having taken the branch of [step == 'exit']. *)
Theorem main_never_recaps {RT : Runtime} (p : Provider) (inputs : list string) :
  exists (final : Script) (why : Stop),
    main p inputs = Some (final, why) /\ why <> Recapped.
Proof.
  unfold main, run.
  destruct (loop_stops p script_procedure
              (passes (start script_system_prompt script_steps inputs))
              (start script_system_prompt script_steps inputs))
    as [[final why] Hrun]; [unfold passes; lia|].
  exists final, why. split; [exact Hrun|].
  apply (loop_never_recaps p script_procedure _ _ final why) in Hrun;
    [exact Hrun| |exact script_steps_no_exit].
  cbn. discriminate.
Qed.

(** When neither the step nor the procedure contains a brace, the
    template the script hands to [extract_info] has exactly one
    placeholder, the plain name [answer] without conversion or format
    specification. *)
Theorem script_question_has_one_placeholder {RT : Runtime}
        (step procedure : string) :
  has_char "{" step = false -> has_char "}" step = false ->
  has_char "{" procedure = false -> has_char "}" procedure = false ->
  exists (template : string) (items : list Item),
    question step procedure = Ok template
    /\ Formatter_parse template = Ok items
    /\ named_fields items = [answer_field]
    /\ is_plain (field_name answer_field) = true.
Proof.
  intros Hso Hsc Hpo Hpc.
  exists (question_text step procedure). eexists.
  split; [apply question_eq|].
  split; [apply question_parse; assumption|].
  split; reflexivity.
Qed.

Lemma script_question_has_one_placeholder_witness :
  exists (template : string) (items : list Item),
    question (RT := plain_runtime)
             "(3) Microwave for about 2 min. The solution should be clear afterwards."
             script_procedure = Ok template
    /\ Formatter_parse template = Ok items
    /\ named_fields items = [answer_field].
Proof.
  destruct (@script_question_has_one_placeholder plain_runtime
              "(3) Microwave for about 2 min. The solution should be clear afterwards."
              script_procedure eq_refl eq_refl eq_refl eq_refl)
    as (template & items & Hq & Hp & Hn & _).
  exists template, items. repeat split; assumption.
Defined.

(** A pass of the loop that starts in external mode and goes on has added
    ten messages to the transcript: the user's line, the record of the
    extraction, the entry marker and announcement, the thought and its
    answer, the note before the reply, the exit announcement and marker,
    and the reply.  It has sent three requests and left the reasoner in
    external mode, with fewer steps or fewer lines left. *)
Theorem iteration_effect {RT : Runtime} (p : Provider) (procedure : string)
        (s s' : Script) :
  _is_internal (self (reasoner s)) = false ->
  iteration p procedure s = (s', None) ->
  (exists new : list Message,
      messages (self (reasoner s')) = (messages (self (reasoner s)) ++ new)%list
      /\ map role new =
         ["user"; "function"; "function"; "assistant"; "assistant";
          "assistant"; "assistant"; "assistant"; "function"; "assistant"])
  /\ length (sent (reasoner s')) = length (sent (reasoner s)) + 3
  /\ _is_internal (self (reasoner s')) = false
  /\ length (steps s') + length (stdin s') < length (steps s) + length (stdin s).
Proof.
  intros Hmode Hpass.
  pose proof (iteration_decreases p procedure s s' Hpass) as Hless.
  destruct (iteration_goes_on p procedure s s' Hpass)
    as (s1 & message & template & answer & w2 & w3 & r1 & r2
        & _ & _ & _ & _ & Hextract & _ & _ & _ & Hthink & Hspeak).
  destruct (extract_info_ok p _ _ _ _ _ Hextract) as (request & m & Hrole & ->).
  apply internal_monologue_ok in Hthink. apply external_dialogue_ok in Hspeak.
  rewrite Hspeak, Hthink.
  unfold dialogue_transcript, monologue_transcript.
  cbn -[TAG str_replace guide_thought reply_thought].
  rewrite Hmode. cbn -[TAG str_replace guide_thought reply_thought].
  split; [|split; [|split]]; [|rewrite !length_app; cbn; lia|reflexivity|exact Hless].
  eexists. split.
  - rewrite <- !app_assoc. cbn [app]. reflexivity.
  - cbn [map role tagged make_message enter_marker enter_notice exit_notice
         exit_marker]. rewrite Hrole. reflexivity.
Qed.

Lemma iteration_effect_witness :
  let p := always "Weigh the agarose."
                  (function_call "remember_answer" [("answer", VBool false)]) in
  let s := start "You are a lab assistant." ["(1) Weigh."; "(2) Pour."] ["done"] in
  exists s' : Script,
    iteration (RT := plain_runtime) p "gel" s = (s', None)
    /\ length (messages (self (reasoner s'))) = 11
    /\ length (sent (reasoner s')) = 3.
Proof.
  intros p s.
  destruct (iteration (RT := plain_runtime) p "gel" s) as [s' why] eqn:Hpass.
  assert (Hwhy : why = None).
  { vm_compute in Hpass. injection Hpass as _ <-. reflexivity. }
  subst why. exists s'. split; [reflexivity|].
  destruct (@iteration_effect plain_runtime p "gel" s s' eq_refl Hpass)
    as ((new & Hnew & Hroles) & Hsent & _).
  split.
  - rewrite Hnew, length_app.
    apply (f_equal (@length string)) in Hroles. rewrite length_map in Hroles.
    rewrite Hroles. reflexivity.
  - rewrite Hsent. reflexivity.
Defined.

(** A list of one step is too short for the script: when the answer to
    the first question compares equal to [True], the script takes the next
    step off the list it has just emptied, and stops on the [IndexError]
    of [pop]. *)
Theorem single_step_completed_raises {RT : Runtime} (p : Provider)
        (system_prompt procedure only : string) (inputs : list string)
        (response : FunctionResponse) (answer : Value) :
  has_char "{" only = false -> has_char "}" only = false ->
  has_char "{" procedure = false -> has_char "}" procedure = false ->
  (forall history request, complete_call p history request = Ok response) ->
  r_role response = "function" ->
  r_args response = [("answer", answer)] ->
  eq_True answer = true ->
  exists final : Script,
    run p system_prompt procedure [only] inputs = Some (final, Raised IndexError)
    /\ steps final = [].
Proof.
  intros Hoo Hoc Hpo Hpc Hcall Hrole Hargs Htrue.
  unfold run, passes, start.
  cbn [loop steps length Nat.add]. unfold iteration.
  cbn [step steps stdin stdout reasoner String.eqb].
  assert (Hquit : String.eqb (greeting procedure) "quit" = false) by reflexivity.
  rewrite Hquit, question_eq.
  assert (Hargs' : r_args response <> []) by (rewrite Hargs; discriminate).
  rewrite (extract_info_plain_eq p (question_text only procedure) (Builtin "bool")
             _ _ answer_field
             (SchemaOf (single_field_model "SingleFieldModel" "answer"
                                           (Builtin "bool")))
             response
             (question_parse only procedure Hoo Hoc Hpo Hpc)
             eq_refl eq_refl eq_refl eq_refl eq_refl (Hcall _ _) Hrole Hargs').
  rewrite Hargs. cbn [dict_get answer_field field_name String.eqb Ascii.eqb Bool.eqb].
  rewrite Htrue. eexists. split; reflexivity.
Qed.

Lemma single_step_completed_raises_witness :
  exists final : Script,
    run (RT := plain_runtime)
        (always "" (function_call "remember_answer" [("answer", VInt 1)]))
        "You are a lab assistant." "gel electrophoresis"
        ["(1) Weigh the agarose."] []
    = Some (final, Raised IndexError)
    /\ steps final = [].
Proof.
  exact (@single_step_completed_raises plain_runtime
           (always "" (function_call "remember_answer" [("answer", VInt 1)]))
           "You are a lab assistant." "gel electrophoresis"
           "(1) Weigh the agarose." []
           (function_call "remember_answer" [("answer", VInt 1)]) (VInt 1)
           eq_refl eq_refl eq_refl eq_refl (fun _ _ => eq_refl)
           eq_refl eq_refl eq_refl).
Defined.


